(** * malgazer: entropy sessions over a malware sample ([library/files.py])

    A shallow embedding of [FileObject] and of the operations that validate
    an (offset, length, window) request and hand the selected bytes to the
    running-entropy engine, followed by the properties of the session that
    the specification states. *)

From Stdlib Require Import ZArith Strings.Byte Ascii String Lia.
From stdpp Require Import base decidable option list numbers strings gmap.

Open Scope Z_scope.

(** ** Python values used by [files.py] *)

Module Py.

(** Clipping of one bound of [l[start:stop]] for a list of [n] items: a
    negative bound counts from the end, and every bound is clipped to
    [0 .. n]. *)
Definition slice_index (n i : Z) : Z :=
  if decide (i < 0) then Z.max 0 (i + n) else Z.min i n.

(** [l[start:stop]] with integer bounds and no step. *)
Definition slice {A : Type} (l : list A) (start stop : Z) : list A :=
  let n := Z.of_nat (length l) in
  let lo := slice_index n start in
  let hi := slice_index n stop in
  take (Z.to_nat (hi - lo)) (drop (Z.to_nat lo) l).

Fixpoint lstrip_nul (l : list ascii) : list ascii :=
  match l with
  | c :: l' => if Ascii.eqb c Ascii.zero then lstrip_nul l' else l
  | [] => []
  end.

(** [s.rstrip('\x00')] *)
Definition rstrip_nul (s : string) : string :=
  string_of_list_ascii (rev (lstrip_nul (rev (list_ascii_of_string s)))).

(** Whether the byte lies in [lo .. hi]. *)
Definition byte_in (lo hi : N) (b : byte) : bool :=
  ((lo <=? Byte.to_N b) && (Byte.to_N b <=? hi))%N.

(** Well-formed UTF-8, the byte sequences a strict decoder takes: one
    byte [00..7F]; [C2..DF] and one continuation byte [80..BF]; [E0..EF]
    and two, the first of them from [A0] after [E0] (no overlong form) and
    up to [9F] after [ED] (no surrogate); [F0..F4] and three, the first of
    them from [90] after [F0] and up to [8F] after [F4] (nothing past
    U+10FFFF). *)
Fixpoint utf8_well_formed (l : list byte) : bool :=
  match l with
  | [] => true
  | b0 :: l1 =>
      if byte_in 0 127 b0 then utf8_well_formed l1
      else if byte_in 194 223 b0 then
        match l1 with
        | b1 :: l2 => byte_in 128 191 b1 && utf8_well_formed l2
        | _ => false
        end
      else if byte_in 224 239 b0 then
        match l1 with
        | b1 :: b2 :: l3 =>
            (if byte_in 224 224 b0 then byte_in 160 191 b1
             else if byte_in 237 237 b0 then byte_in 128 159 b1
             else byte_in 128 191 b1)
            && byte_in 128 191 b2 && utf8_well_formed l3
        | _ => false
        end
      else if byte_in 240 244 b0 then
        match l1 with
        | b1 :: b2 :: b3 :: l4 =>
            (if byte_in 240 240 b0 then byte_in 144 191 b1
             else if byte_in 244 244 b0 then byte_in 128 143 b1
             else byte_in 128 191 b1)
            && byte_in 128 191 b2 && byte_in 128 191 b3
            && utf8_well_formed l4
        | _ => false
        end
      else false
  end.

(** [b.decode('UTF-8')]: the text, or [None] where Python raises
    [UnicodeDecodeError]. A text is kept as its UTF-8 bytes, one character
    of the [string] for each byte; U+0000 is the one byte [00], which is
    part of no longer sequence, so [rstrip_nul] above takes off exactly the
    NUL characters at the end of a text. *)
Definition decode_utf8 (b : list byte) : option string :=
  if utf8_well_formed b then Some (string_of_list_byte b) else None.

(** [.*pat] read from the current position: [.] takes any character but
    a newline. *)
Fixpoint dot_star_then (pat s : string) : bool :=
  String.prefix pat s ||
  match s with
  | EmptyString => false
  | String c s' =>
      if Ascii.eqb c "010"%char then false else dot_star_then pat s'
  end.

(** [re.match("PE.*MS Windows.*", s)], as a truth value; the pattern is
    anchored at the start only and its last [.*] takes whatever is left. *)
Definition re_match_PE_MS_Windows (s : string) : bool :=
  match s with
  | String "P" (String "E" rest) => dot_star_then "MS Windows" rest
  | _ => false
  end.

End Py.

(** ** The running-entropy engine ([library/entropy.py]) *)

Module Entropy.

(** [entropy.RunningEntropy(window=..., normalize=...)]: the object only
    keeps its two settings. *)
Record RunningEntropy := { window : Z; normalize : bool }.

(** Consecutive slices of [w] items, the last one as long as what is
    left; [fuel] bounds the number of slices. *)
Fixpoint chunks_upto {A : Type} (fuel w : nat) (l : list A) : list (list A) :=
  match fuel with
  | O => []
  | S fuel' =>
      match l with
      | [] => []
      | _ :: _ => take w l :: chunks_upto fuel' w (drop w l)
      end
  end.

Definition chunks {A : Type} (w : nat) (l : list A) : list (list A) :=
  chunks_upto (length l) w l.

(** The 256 byte values, in increasing order. *)
Definition byte_values : list byte := omap Byte.of_nat (seq 0 256).

(** Frequency histogram of a slice over the 256 byte values. *)
Definition histogram (s : list byte) : list nat :=
  map (fun v => length (List.filter (Byte.eqb v) s)) byte_values.

(** One entry of a series. The engine's number is a float,
    [H = - sum p_i * log2 p_i] over the counts [c_i > 0] with
    [p_i = c_i / size], divided by 8 when [normalized]; it is kept here as
    the data that determines it: the slice's histogram, the slice's own
    byte count and the normalisation flag. *)
Record EntropyWindow := {
  ew_histogram : list nat;
  ew_size : nat;
  ew_normalized : bool
}.

Definition shannon (normalized : bool) (s : list byte) : EntropyWindow :=
  {| ew_histogram := histogram s;
     ew_size := length s;
     ew_normalized := normalized |}.

(** What the engine raises on a request it does not take. *)
Inductive engine_error :=
| InvalidWindow (window : Z) (span : nat).

(** Modelled from the spec: [RunningEntropy.calculate] of
    [library/entropy.py], which is not among the sources. The
    specification's [compute_series] takes a non-empty byte sequence and a
    positive window no larger than it, cuts the bytes into consecutive,
    non-overlapping slices of [window] bytes, the last one possibly
    shorter, and scores every slice over its own bytes, in slice order; a
    window larger than the span is invalid, and so is an empty input. *)
Definition calculate (runent : RunningEntropy) (inputbytes : list byte)
  : engine_error + list EntropyWindow :=
  if decide (1 <= window runent <= Z.of_nat (length inputbytes)) then
    inr (map (shannon (normalize runent))
             (chunks (Z.to_nat (window runent)) inputbytes))
  else
    inl (InvalidWindow (window runent) (length inputbytes)).

(** The ceiling of [a / b] for a positive [b]. *)
Definition ceil_div (a b : Z) : Z := (a + b - 1) / b.

End Entropy.

(** ** The session ([library/files.py]) *)

Module Files.
Import Entropy.

(** The three [IndexError]s of the file: the two range checks of
    [running_entropy], with the values their messages carry, and the one
    Python raises for [l[0]] on an empty list. *)
Inductive index_error :=
| offset_not_valid (offset file_size window_size : Z)
| length_not_valid (length file_size offset : Z)
| list_index_out_of_range.

(** Exceptions, by class; [EngineError] is whatever the engine raises,
    of a type [E] of its own. *)
Inductive exn (E : Type) :=
| ValueError (filename : string)
| IndexError (m : index_error)
| Exception
| PEFormatError
| UnicodeDecodeError
| EngineError (e : E).
Arguments ValueError {E} filename.
Arguments IndexError {E} m.
Arguments Exception {E}.
Arguments PEFormatError {E}.
Arguments UnicodeDecodeError {E}.
Arguments EngineError {E} e.

Inductive outcome (E A : Type) :=
| Returns (a : A)
| Raises (e : exn E).
Arguments Returns {E A} a.
Arguments Raises {E A} e.

(** What an outcome returned, or [d] when it raised. *)
Definition returned {E A : Type} (d : A) (r : outcome E A) : A :=
  match r with
  | Returns a => a
  | Raises _ => d
  end.

(** A section of [pefile.PE(...).sections], as far as the file reads it.
    [Name] is the section's name as the parser hands it over: bytes, with
    the NULs that fill it up still on it. *)
Record PESection := {
  Name : list byte;
  PointerToRawData : Z;
  SizeOfRawData : Z
}.

(** One item of [parsedfile['running_entropy']['sections']]. *)
Record section_series (V : Type) := {
  ss_name : string;
  ss_offset : Z;
  ss_length : Z;
  ss_entropy_window_length : Z;
  ss_normalize : bool;
  ss_running_entropy : list V
}.
Arguments ss_name {V}. Arguments ss_offset {V}. Arguments ss_length {V}.
Arguments ss_entropy_window_length {V}. Arguments ss_normalize {V}.
Arguments ss_running_entropy {V}.

(** One item of [parsedfile['entropy']['sections']]. *)
Record section_value (V : Type) := {
  sv_name : string;
  sv_offset : Z;
  sv_length : Z;
  sv_normalize : bool;
  sv_entropy : V
}.
Arguments sv_name {V}. Arguments sv_offset {V}. Arguments sv_length {V}.
Arguments sv_normalize {V}. Arguments sv_entropy {V}.

(** The [parsedfile] dict: its keys ['type'] and ['file'] are set at
    construction, ['running_entropy'] and ['entropy'] (each a dict with
    the one key ['sections']) by the region operations. *)
Record ParsedFile (V : Type) := {
  pf_type : string;
  pf_file : list PESection;
  pf_running_entropy : option (list (section_series V));
  pf_entropy : option (list (section_value V))
}.
Arguments pf_type {V}. Arguments pf_file {V}.
Arguments pf_running_entropy {V}. Arguments pf_entropy {V}.

(** The attributes of a [FileObject]. An attribute that [__init__] does
    not set is [None] until the operation that creates it has run. *)
Record FileObject (V : Type) := {
  filename : string;
  filetype : string;
  data : list byte;
  file_size : Z;
  md5 : string;
  sha256 : string;
  parsedfile : option (ParsedFile V);
  running_entropy_data : option (list V);
  running_entropy_window_size : Z;
  running_entropy_offset : option Z;
  running_entropy_length : option Z;
  file_entropy : option V
}.
Arguments filename {V}. Arguments filetype {V}. Arguments data {V}.
Arguments file_size {V}. Arguments md5 {V}. Arguments sha256 {V}.
Arguments parsedfile {V}. Arguments running_entropy_data {V}.
Arguments running_entropy_window_size {V}.
Arguments running_entropy_offset {V}.
Arguments running_entropy_length {V}. Arguments file_entropy {V}.

Declare Scope method_scope.
Delimit Scope method_scope with method.

Section Session.
Context {V E : Type}.

(** The engine: [runent.calculate(data)] for a [runent] built from a
    window and a flag. Its code is not in [files.py]; the session only
    calls it, on bytes it has sliced. *)
Variable calculate : RunningEntropy -> list byte -> E + list V.

(** Assignments to one attribute. *)
Definition set_parsedfile (p : option (ParsedFile V)) (self : FileObject V) :=
  {| filename := filename self; filetype := filetype self;
     data := data self; file_size := file_size self;
     md5 := md5 self; sha256 := sha256 self;
     parsedfile := p;
     running_entropy_data := running_entropy_data self;
     running_entropy_window_size := running_entropy_window_size self;
     running_entropy_offset := running_entropy_offset self;
     running_entropy_length := running_entropy_length self;
     file_entropy := file_entropy self |}.

Definition set_running_entropy_data (d : option (list V)) (self : FileObject V) :=
  {| filename := filename self; filetype := filetype self;
     data := data self; file_size := file_size self;
     md5 := md5 self; sha256 := sha256 self;
     parsedfile := parsedfile self;
     running_entropy_data := d;
     running_entropy_window_size := running_entropy_window_size self;
     running_entropy_offset := running_entropy_offset self;
     running_entropy_length := running_entropy_length self;
     file_entropy := file_entropy self |}.

Definition set_running_entropy_window_size (w : Z) (self : FileObject V) :=
  {| filename := filename self; filetype := filetype self;
     data := data self; file_size := file_size self;
     md5 := md5 self; sha256 := sha256 self;
     parsedfile := parsedfile self;
     running_entropy_data := running_entropy_data self;
     running_entropy_window_size := w;
     running_entropy_offset := running_entropy_offset self;
     running_entropy_length := running_entropy_length self;
     file_entropy := file_entropy self |}.

Definition set_running_entropy_offset (o : option Z) (self : FileObject V) :=
  {| filename := filename self; filetype := filetype self;
     data := data self; file_size := file_size self;
     md5 := md5 self; sha256 := sha256 self;
     parsedfile := parsedfile self;
     running_entropy_data := running_entropy_data self;
     running_entropy_window_size := running_entropy_window_size self;
     running_entropy_offset := o;
     running_entropy_length := running_entropy_length self;
     file_entropy := file_entropy self |}.

Definition set_running_entropy_length (n : option Z) (self : FileObject V) :=
  {| filename := filename self; filetype := filetype self;
     data := data self; file_size := file_size self;
     md5 := md5 self; sha256 := sha256 self;
     parsedfile := parsedfile self;
     running_entropy_data := running_entropy_data self;
     running_entropy_window_size := running_entropy_window_size self;
     running_entropy_offset := running_entropy_offset self;
     running_entropy_length := n;
     file_entropy := file_entropy self |}.

Definition set_file_entropy (v : option V) (self : FileObject V) :=
  {| filename := filename self; filetype := filetype self;
     data := data self; file_size := file_size self;
     md5 := md5 self; sha256 := sha256 self;
     parsedfile := parsedfile self;
     running_entropy_data := running_entropy_data self;
     running_entropy_window_size := running_entropy_window_size self;
     running_entropy_offset := running_entropy_offset self;
     running_entropy_length := running_entropy_length self;
     file_entropy := v |}.

(** A method: it reads and writes [self] and returns or raises; what it
    wrote before raising stays written. *)
Definition method (A : Type) : Type :=
  FileObject V -> outcome E A * FileObject V.

Definition ret {A} (a : A) : method A := fun self => (Returns a, self).
Definition raise {A} (e : exn E) : method A := fun self => (Raises e, self).
Definition bind {A B} (m : method A) (k : A -> method B) : method B :=
  fun self =>
    match m self with
    | (Returns a, self') => k a self'
    | (Raises e, self') => (Raises e, self')
    end.
Definition get : method (FileObject V) := fun self => (Returns self, self).
Definition assign (f : FileObject V -> FileObject V) : method unit :=
  fun self => (Returns tt, f self).

(** A call into the engine; what it raises goes up as it is. *)
Definition engine {A} (r : E + A) : method A :=
  match r with
  | inr a => ret a
  | inl e => raise (EngineError e)
  end.

(** [l[0]] *)
Definition item0 {A} (l : list A) : method A :=
  match l with
  | a :: _ => ret a
  | [] => raise (IndexError list_index_out_of_range)
  end.

Notation "'let*' x ':=' m 'in' k" := (bind m (fun x => k))
  (at level 10, x name, m at level 100, k at level 200) : method_scope.
Notation "m ;; k" := (bind m (fun _ => k))
  (at level 100, k at level 200, right associativity) : method_scope.
Local Open Scope method_scope.

Fixpoint for_each {A} (l : list A) (body : A -> method unit) : method unit :=
  match l with
  | [] => ret tt
  | a :: l' => body a ;; for_each l' body
  end.

(** [running_entropy(self, window_size=256, normalize=True, offset=0,
    length=None)]; the defaults are the caller's to fill in. *)
Definition running_entropy (window_size : Z) (normalize : bool)
    (offset : Z) (length : option Z) : method (list V) :=
  let* self := get in
  let runent := {| window := window_size; Entropy.normalize := normalize |} in
  (if decide (offset > file_size self - window_size \/ offset < 0)
   then raise (IndexError
                 (offset_not_valid offset (file_size self) window_size))
   else ret tt) ;;
  let* length :=
    match length with
    | Some length =>
        if decide (length + offset > file_size self)
        then raise (IndexError
                      (length_not_valid length (file_size self) offset))
        else ret length
    | None => ret (file_size self - offset)
    end in
  let data := Py.slice (data self) offset (length + offset) in
  assign (set_running_entropy_offset (Some offset)) ;;
  assign (set_running_entropy_length (Some length)) ;;
  assign (set_running_entropy_window_size window_size) ;;
  let* vals := engine (calculate runent data) in
  assign (set_running_entropy_data (Some vals)) ;;
  ret vals.

(** [entropy(self, normalize=True)] *)
Definition entropy (normalize : bool) : method V :=
  let* self := get in
  let runent := {| window := Z.of_nat (length (data self));
                   Entropy.normalize := normalize |} in
  let* runentvals := engine (calculate runent (data self)) in
  (if decide (1 < length runentvals)%nat then raise Exception else ret tt) ;;
  let* v := item0 runentvals in
  assign (set_file_entropy (Some v)) ;;
  ret v.

(** Writes under [self.parsedfile]; the dict is there whenever one of
    them runs. *)
Definition set_pf_running_entropy (l : option (list (section_series V)))
    (pf : ParsedFile V) : ParsedFile V :=
  {| pf_type := pf_type pf; pf_file := pf_file pf;
     pf_running_entropy := l; pf_entropy := pf_entropy pf |}.

Definition set_pf_entropy (l : option (list (section_value V)))
    (pf : ParsedFile V) : ParsedFile V :=
  {| pf_type := pf_type pf; pf_file := pf_file pf;
     pf_running_entropy := pf_running_entropy pf; pf_entropy := l |}.

Definition in_parsedfile (f : ParsedFile V -> ParsedFile V) : method unit :=
  assign (fun self => set_parsedfile (f <$> parsedfile self) self).

(** [parsedfile['running_entropy']['sections'].append(item)] *)
Definition append_series (item : section_series V) : method unit :=
  in_parsedfile (fun pf =>
    set_pf_running_entropy ((fun l => l ++ [item]) <$> pf_running_entropy pf) pf).

(** [parsedfile['entropy']['sections'].append(item)] *)
Definition append_value (item : section_value V) : method unit :=
  in_parsedfile (fun pf =>
    set_pf_entropy ((fun l => l ++ [item]) <$> pf_entropy pf) pf).

(** [b.decode('UTF-8')] *)
Definition decode (b : list byte) : method string :=
  match Py.decode_utf8 b with
  | Some text => ret text
  | None => raise UnicodeDecodeError
  end.

(** The body of the [for section in ...] of
    [parsed_file_running_entropy]. *)
Definition section_running_entropy (window_size : Z) (normalize : bool)
    (section : PESection) : method unit :=
  let* decoded := decode (Name section) in
  let section_name := Py.rstrip_nul decoded in
  let offset := PointerToRawData section in
  let length := SizeOfRawData section in
  let* series :=
    running_entropy window_size normalize offset (Some length) in
  append_series
    {| ss_name := section_name; ss_offset := offset;
       ss_length := length;
       ss_entropy_window_length := window_size;
       ss_normalize := normalize;
       ss_running_entropy := series |}.

(** [parsed_file_running_entropy(self, window_size=256, normalize=True)];
    [None] is the function's [None], [Some l] the dict
    [{'sections': l}] it hands back. *)
Definition parsed_file_running_entropy (window_size : Z) (normalize : bool)
  : method (option (list (section_series V))) :=
  let* self := get in
  match parsedfile self with
  | None => ret None
  | Some pf =>
      if decide (pf_type pf = "pefile") then
        in_parsedfile (set_pf_running_entropy (Some [])) ;;
        for_each (pf_file pf)
          (section_running_entropy window_size normalize) ;;
        let* self := get in
        ret (parsedfile self ≫= pf_running_entropy)
      else ret None
  end.

(** The body of the [for section in ...] of [parsed_file_entropy]. *)
Definition section_entropy (normalize : bool) (section : PESection)
  : method unit :=
  let* decoded := decode (Name section) in
  let section_name := Py.rstrip_nul decoded in
  let offset := PointerToRawData section in
  let length := SizeOfRawData section in
  let* entval :=
    running_entropy length normalize offset (Some length) in
  (if decide (1 < List.length entval)%nat
   then raise Exception else ret tt) ;;
  let* entval := item0 entval in
  append_value
    {| sv_name := section_name; sv_offset := offset;
       sv_length := length; sv_normalize := normalize;
       sv_entropy := entval |}.

(** [parsed_file_entropy(self, normalize=True)] *)
Definition parsed_file_entropy (normalize : bool)
  : method (option (list (section_value V))) :=
  let* self := get in
  match parsedfile self with
  | None => ret None
  | Some pf =>
      if decide (pf_type pf = "pefile") then
        in_parsedfile (set_pf_entropy (Some [])) ;;
        for_each (pf_file pf) (section_entropy normalize) ;;
        let* self := get in
        ret (parsedfile self ≫= pf_entropy)
      else ret None
  end.

(** One region of a batch taken alone: the decoding of the section's
    name, which may raise, then the direct call
    [running_entropy(window_size, normalize, offset, length)] on [self]
    for the section's raw bounds, under the section's descriptor. *)
Definition region_series (window_size : Z) (normalize : bool)
    (self : FileObject V) (section : PESection)
  : outcome E (section_series V) :=
  match Py.decode_utf8 (Name section) with
  | None => Raises UnicodeDecodeError
  | Some decoded =>
      match fst (running_entropy window_size normalize
                   (PointerToRawData section)
                   (Some (SizeOfRawData section)) self) with
      | Returns series =>
          Returns {| ss_name := Py.rstrip_nul decoded;
                     ss_offset := PointerToRawData section;
                     ss_length := SizeOfRawData section;
                     ss_entropy_window_length := window_size;
                     ss_normalize := normalize;
                     ss_running_entropy := series |}
      | Raises e => Raises e
      end
  end.

(** One region of an aggregate batch taken alone: the decoding of the
    section's name, which may raise, then the direct call
    [running_entropy(length, normalize, offset, length)] on [self] for the
    section's raw bounds, then the check that the series has no second
    entry and its entry [[0]], under the section's descriptor. *)
Definition region_value (normalize : bool)
    (self : FileObject V) (section : PESection)
  : outcome E (section_value V) :=
  match Py.decode_utf8 (Name section) with
  | None => Raises UnicodeDecodeError
  | Some decoded =>
      match fst (running_entropy (SizeOfRawData section) normalize
                   (PointerToRawData section)
                   (Some (SizeOfRawData section)) self) with
      | Returns [] => Raises (IndexError list_index_out_of_range)
      | Returns [v] =>
          Returns {| sv_name := Py.rstrip_nul decoded;
                     sv_offset := PointerToRawData section;
                     sv_length := SizeOfRawData section;
                     sv_normalize := normalize;
                     sv_entropy := v |}
      | Returns (_ :: _ :: _) => Raises Exception
      | Raises e => Raises e
      end
  end.

(** The items of a batch in order, or what the first item that raises
    raised. *)
Fixpoint batch {A B : Type} (f : A -> outcome E B) (l : list A)
  : outcome E (list B) :=
  match l with
  | [] => Returns []
  | a :: l' =>
      match f a with
      | Raises e => Raises e
      | Returns b =>
          match batch f l' with
          | Raises e => Raises e
          | Returns bs => Returns (b :: bs)
          end
      end
  end.

End Session.

(** *** Construction *)

(** What construction does to the world outside and to its two hash
    objects, in the order it does it. *)
Inductive event :=
| os_path_exists (filename : string)
| magic_from_file (filename : string)
| open_rb (filename : string)
| read_1 (b : option byte)
| md5_update (b : byte)
| sha256_update (b : byte)
| pefile_PE (filename : string).

(** The locals and attributes of [_read_file] while it runs: what is
    left of the open file, the bytes each hash object was fed, the list
    under [self.data], and the events so far. *)
Record reading := {
  hash_md5 : list byte;
  hash_sha256 : list byte;
  read_data : list byte;
  read_log : list event
}.

Section Construction.
Context {V E : Type}.

(** The collaborators, none of them part of the repository: the type
    label of [magic], the two hex digests of [hashlib] as functions of
    all the bytes an object was fed, and the sections [pefile] finds
    ([None] when it raises). *)
Variable magic_label : string -> list byte -> string.
Variable md5_hexdigest : list byte -> string.
Variable sha256_hexdigest : list byte -> string.
Variable pe_sections : string -> list byte -> option (list PESection).

(** The [while byte != b""] of [_read_file], from the first
    [f.read(1)] on; [rest] is what the file still holds. *)
Fixpoint read_loop (rest : list byte) (st : reading) : reading :=
  match rest with
  | [] =>
      {| hash_md5 := hash_md5 st; hash_sha256 := hash_sha256 st;
         read_data := read_data st;
         read_log := read_log st ++ [read_1 None] |}
  | b :: rest' =>
      read_loop rest'
        {| hash_md5 := hash_md5 st ++ [b];
           hash_sha256 := hash_sha256 st ++ [b];
           read_data := read_data st ++ [b];
           read_log := read_log st
                         ++ [read_1 (Some b); md5_update b; sha256_update b] |}
  end.

(** [_read_file(self)], on the content of [self.filename]; [self.data]
    is the empty list when it starts. *)
Definition _read_file (content : list byte) (self : FileObject V)
  : FileObject V * list event :=
  let st := read_loop content
              {| hash_md5 := []; hash_sha256 := [];
                 read_data := data self;
                 read_log := [open_rb (filename self)] |} in
  ({| filename := filename self; filetype := filetype self;
      data := read_data st;
      file_size := Z.of_nat (length (read_data st));
      md5 := md5_hexdigest (hash_md5 st);
      sha256 := sha256_hexdigest (hash_sha256 st);
      parsedfile := parsedfile self;
      running_entropy_data := running_entropy_data self;
      running_entropy_window_size := running_entropy_window_size self;
      running_entropy_offset := running_entropy_offset self;
      running_entropy_length := running_entropy_length self;
      file_entropy := file_entropy self |},
   read_log st).

(** [_parse_file_type(self)] *)
Definition _parse_file_type (content : list byte) (self : FileObject V)
  : outcome E (FileObject V) * list event :=
  if Py.re_match_PE_MS_Windows (filetype self) then
    match pe_sections (filename self) content with
    | Some sections =>
        (Returns
           (set_parsedfile
              (Some {| pf_type := "pefile"; pf_file := sections;
                       pf_running_entropy := None; pf_entropy := None |})
              self),
         [pefile_PE (filename self)])
    | None => (Raises PEFormatError, [pefile_PE (filename self)])
    end
  else (Returns self, []).

(** [FileObject(filename)] in a file system [fs] of paths and their
    contents: the new object or the exception, and what was done. *)
Definition __init__ (fs : gmap string (list byte)) (filename : string)
  : outcome E (FileObject V) * list event :=
  match fs !! filename with
  | None => (Raises (ValueError filename), [os_path_exists filename])
  | Some content =>
      let self :=
        {| filename := filename;
           filetype := magic_label filename content;
           data := [];
           file_size := 0;
           md5 := ""; sha256 := "";
           parsedfile := None;
           running_entropy_data := None;
           running_entropy_window_size := 0;
           running_entropy_offset := None;
           running_entropy_length := None;
           file_entropy := None |} in
      let '(self, log_read) := _read_file content self in
      let '(r, log_parse) := _parse_file_type content self in
      (r, [os_path_exists filename; magic_from_file filename]
            ++ log_read ++ log_parse)
  end.

(** The events of [_read_file] on a file that holds [content]: the file
    is opened, every byte is read and goes to the one hash object and then
    to the other, and the read that finds the end of the file comes last. *)
Definition read_events (name : string) (content : list byte) : list event :=
  open_rb name
  :: flat_map (fun b => [read_1 (Some b); md5_update b; sha256_update b])
       content
  ++ [read_1 None].

End Construction.

(** A session: the size is the buffer's. *)
Definition session {V} (self : FileObject V) : Prop :=
  file_size self = Z.of_nat (length (data self)).

(** The buffer and the identity derived from it. *)
Definition identity {V} (self : FileObject V)
  : list byte * Z * string * string :=
  (data self, file_size self, md5 self, sha256 self).

(** What [running_entropy] records of its last run. *)
Definition introspection {V} (self : FileObject V)
  : option Z * option Z * Z * option (list V) :=
  (running_entropy_offset self, running_entropy_length self,
   running_entropy_window_size self, running_entropy_data self).

(** The session after [running_entropy] has recorded a request. *)
Definition recorded {V} (offset length window_size : Z) (self : FileObject V)
  : FileObject V :=
  set_running_entropy_window_size window_size
    (set_running_entropy_length (Some length)
       (set_running_entropy_offset (Some offset) self)).

(** What the region operations read of the parsed file: its kind and its
    sections. *)
Definition layout {V} (self : FileObject V)
  : option (string * list PESection) :=
  (fun pf => (pf_type pf, pf_file pf)) <$> parsedfile self.

(** The attributes set at construction that say what the file is. *)
Definition labels {V} (self : FileObject V) : string * string :=
  (filename self, filetype self).

End Files.

(** ** Sample sessions *)

Module Samples.
Import Files Entropy.

Definition ten_bytes : list byte :=
  [x00; x01; x02; x03; x04; x05; x06; x07; x08; x09].

(** Stand-ins for the collaborators of construction. *)
Definition label (_ : string) (content : list byte) : string :=
  match content with
  | x4d :: x5a :: _ => "PE32 executable (GUI) Intel 80386, for MS Windows"
  | _ => "data"
  end.
Definition digest (tag : string) (content : list byte) : string :=
  String.append tag (string_of_list_byte content).
Definition no_sections (_ : string) (_ : list byte)
  : option (list PESection) := Some [].

Definition disk : gmap string (list byte) :=
  {[ "sample.bin" := ten_bytes ]}.

(** The session [FileObject("sample.bin")] over [disk]. *)
Definition plain : FileObject EntropyWindow :=
  {| filename := "sample.bin"; filetype := "data";
     data := ten_bytes; file_size := 10;
     md5 := digest "md5:" ten_bytes; sha256 := digest "sha256:" ten_bytes;
     parsedfile := None;
     running_entropy_data := None;
     running_entropy_window_size := 0;
     running_entropy_offset := None;
     running_entropy_length := None;
     file_entropy := None |}.

Definition nul3 : list byte := [x00; x00; x00].

Definition text : PESection :=
  {| Name := list_byte_of_string ".text" ++ nul3;
     PointerToRawData := 0; SizeOfRawData := 4 |}.
Definition rdata : PESection :=
  {| Name := list_byte_of_string ".data" ++ nul3;
     PointerToRawData := 4; SizeOfRawData := 4 |}.
Definition rsrc : PESection :=
  {| Name := list_byte_of_string ".rsrc" ++ nul3;
     PointerToRawData := 8; SizeOfRawData := 4 |}.

(** A section whose name is no UTF-8: the byte [ff] is in it. *)
Definition upx : PESection :=
  {| Name := list_byte_of_string "UPX" ++ [xff] ++ nul3;
     PointerToRawData := 4; SizeOfRawData := 4 |}.

(** The same buffer, parsed as a PE file with the given sections. *)
Definition parsed (sections : list PESection) : FileObject EntropyWindow :=
  set_parsedfile
    (Some {| pf_type := "pefile"; pf_file := sections;
             pf_running_entropy := None; pf_entropy := None |})
    plain.

(** A second file on a second disk, with the two magic bytes of an
    executable first, and a parser that finds two sections in it. *)
Definition exe_bytes : list byte := x4d :: x5a :: ten_bytes.
Definition exe_disk : gmap string (list byte) :=
  {[ "sample.exe" := exe_bytes ]}.
Definition two_sections (_ : string) (_ : list byte)
  : option (list PESection) := Some [text; rdata].

(** A section of two bytes that ends where the ten bytes end. *)
Definition tail : PESection :=
  {| Name := list_byte_of_string ".tail";
     PointerToRawData := 8; SizeOfRawData := 2 |}.

End Samples.

(** * Properties *)

Import Files Entropy.

(** ** Slices and chunks *)

Section Slices.
Context {A : Type}.
Implicit Types l : list A.

Lemma slice_inside l (a n : Z) :
  0 <= a -> 0 <= n -> a + n <= Z.of_nat (length l) ->
  Py.slice l a (n + a) = take (Z.to_nat n) (drop (Z.to_nat a) l).
Proof.
  intros Ha Hn Hfit. unfold Py.slice, Py.slice_index.
  repeat case_decide; try lia.
  rewrite !Z.min_l by lia. f_equal. lia.
Qed.

Lemma slice_inside_length l (a n : Z) :
  0 <= a -> 0 <= n -> a + n <= Z.of_nat (length l) ->
  Z.of_nat (length (Py.slice l a (n + a))) = n.
Proof.
  intros Ha Hn Hfit. rewrite slice_inside by assumption.
  rewrite length_take, length_drop. lia.
Qed.

Lemma slice_whole l : Py.slice l 0 (Z.of_nat (length l) + 0) = l.
Proof.
  rewrite slice_inside by lia.
  rewrite Nat2Z.id. simpl. apply firstn_all.
Qed.

Lemma slice_to_end l (a : Z) :
  0 <= a ->
  Py.slice l a (Z.of_nat (length l) - a + a) = drop (Z.to_nat a) l.
Proof.
  intros Ha. destruct (decide (a <= Z.of_nat (length l))) as [Hle|Hgt].
  - rewrite slice_inside by lia.
    apply take_ge. rewrite length_drop. lia.
  - unfold Py.slice, Py.slice_index. repeat case_decide; try lia.
    rewrite (drop_ge l (Z.to_nat a)) by lia.
    rewrite drop_ge by lia. apply take_nil.
Qed.

(** From a start that is not negative, a slice is never longer than the
    distance between its bounds. *)
Lemma slice_length_le l (a n : Z) :
  0 <= a -> 0 <= n -> Z.of_nat (length (Py.slice l a (n + a))) <= n.
Proof.
  intros Ha Hn. unfold Py.slice, Py.slice_index.
  repeat case_decide; try lia.
  rewrite length_take, length_drop. lia.
Qed.

End Slices.

Section Chunks.
Context {A : Type}.
Implicit Types l : list A.

Lemma ceil_div_is_ceiling (a b : Z) :
  0 < b -> b * (ceil_div a b - 1) < a <= b * ceil_div a b.
Proof.
  intros Hb. unfold ceil_div.
  pose proof (Z.div_mod (a + b - 1) b ltac:(lia)) as Hdm.
  pose proof (Z.mod_pos_bound (a + b - 1) b Hb) as Hr.
  lia.
Qed.

Lemma ceil_div_unique (a b q : Z) :
  0 < b -> b * (q - 1) < a <= b * q -> ceil_div a b = q.
Proof.
  intros Hb Hq. pose proof (ceil_div_is_ceiling a b Hb) as Hc. nia.
Qed.

Lemma chunks_upto_length (fuel w : nat) l :
  (0 < w)%nat -> (length l <= fuel)%nat ->
  Z.of_nat (length (chunks_upto fuel w l))
  = ceil_div (Z.of_nat (length l)) (Z.of_nat w).
Proof.
  intros Hw. revert l.
  induction fuel as [|fuel IH]; intros l Hfuel.
  - destruct l as [|x l]; simpl in Hfuel; [|lia].
    symmetry. apply ceil_div_unique; simpl; lia.
  - destruct l as [|x l].
    + symmetry. apply ceil_div_unique; simpl; lia.
    + cbn [chunks_upto]. cbn [length] in *.
      rewrite Nat2Z.inj_succ, IH by (rewrite length_drop; simpl; lia).
      rewrite length_drop. cbn [length].
      pose proof (ceil_div_is_ceiling
                    (Z.of_nat (S (length l) - w)) (Z.of_nat w) ltac:(lia)) as Hc.
      symmetry. apply ceil_div_unique; [lia|].
      generalize dependent (ceil_div (Z.of_nat (S (length l) - w)) (Z.of_nat w)).
      intros q Hq.
      destruct (decide (w <= S (length l))%nat) as [Hle|Hgt].
      * rewrite Nat2Z.inj_sub in Hq by lia. lia.
      * replace (S (length l) - w)%nat with 0%nat in Hq by lia.
        assert (q = 0) as -> by nia. lia.
Qed.

Lemma chunks_upto_lookup (fuel w : nat) l (i : nat) :
  (0 < w)%nat -> (length l <= fuel)%nat -> (i * w < length l)%nat ->
  chunks_upto fuel w l !! i = Some (take w (drop (i * w) l)).
Proof.
  intros Hw. revert l i.
  induction fuel as [|fuel IH]; intros l i Hfuel Hi; [lia|].
  destruct l as [|x l]; [simpl in Hi; lia|].
  cbn [chunks_upto]. destruct i as [|i].
  - reflexivity.
  - cbn [lookup list_lookup]. rewrite IH.
    + rewrite drop_drop. repeat f_equal; lia.
    + rewrite length_drop. cbn [length] in *. lia.
    + rewrite length_drop. cbn [length] in *. lia.
Qed.

Lemma chunks_upto_concat (fuel w : nat) l :
  (0 < w)%nat -> (length l <= fuel)%nat -> concat (chunks_upto fuel w l) = l.
Proof.
  intros Hw. revert l.
  induction fuel as [|fuel IH]; intros l Hfuel.
  - destruct l; [reflexivity | simpl in Hfuel; lia].
  - destruct l as [|x l]; [reflexivity|].
    cbn [chunks_upto concat]. rewrite IH.
    + apply take_drop.
    + rewrite length_drop. cbn [length] in *. lia.
Qed.

Lemma chunks_length (w : nat) l :
  (0 < w)%nat ->
  Z.of_nat (length (chunks w l)) = ceil_div (Z.of_nat (length l)) (Z.of_nat w).
Proof. intros Hw. apply chunks_upto_length; [assumption | lia]. Qed.

Lemma chunks_lookup (w : nat) l (i : nat) :
  (0 < w)%nat -> (i * w < length l)%nat ->
  chunks w l !! i = Some (take w (drop (i * w) l)).
Proof. intros Hw Hi. apply chunks_upto_lookup; [assumption | lia | assumption]. Qed.

Lemma chunks_concat (w : nat) l : (0 < w)%nat -> concat (chunks w l) = l.
Proof. intros Hw. apply chunks_upto_concat; [assumption | lia]. Qed.

(** A window as long as the bytes gives the one slice of all of them. *)
Lemma chunks_whole l : l <> [] -> chunks (length l) l = [l].
Proof.
  intros Hl. unfold chunks. destruct l as [|x l]; [congruence|].
  pose proof (firstn_all (x :: l)) as Htake.
  pose proof (drop_all (x :: l)) as Hdrop.
  cbn [length] in *. cbn [chunks_upto].
  rewrite Htake, Hdrop. destruct (length l); reflexivity.
Qed.

End Chunks.

(** ** The range checks of [running_entropy] *)

Section RangeChecks.
Context {V E : Type}.
Variable calculate : RunningEntropy -> list byte -> E + list V.
Implicit Types self : FileObject V.

Lemma running_entropy_bad_offset self w n off len :
  ~ (0 <= off <= file_size self - w) ->
  running_entropy calculate w n off len self
  = (Raises (IndexError (offset_not_valid off (file_size self) w)), self).
Proof.
  intros Hoff. unfold running_entropy, bind, get, raise. simpl.
  case_decide; [reflexivity | lia].
Qed.

Lemma running_entropy_bad_length self w n off l :
  0 <= off <= file_size self - w -> l + off > file_size self ->
  running_entropy calculate w n off (Some l) self
  = (Raises (IndexError (length_not_valid l (file_size self) off)), self).
Proof.
  intros Hoff Hlen. unfold running_entropy, bind, get, raise, ret. simpl.
  case_decide; [lia|]. case_decide; [reflexivity | lia].
Qed.

Lemma running_entropy_checked self w n off l :
  0 <= off <= file_size self - w -> l + off <= file_size self ->
  running_entropy calculate w n off (Some l) self
  = match calculate {| window := w; normalize := n |}
            (Py.slice (data self) off (l + off)) with
    | inr vals =>
        (Returns vals,
         set_running_entropy_data (Some vals) (recorded off l w self))
    | inl e => (Raises (EngineError e), recorded off l w self)
    end.
Proof.
  intros Hoff Hlen.
  unfold running_entropy, bind, get, raise, ret, assign, engine. simpl.
  case_decide; [lia|]. case_decide; [lia|].
  destruct (calculate _ _); reflexivity.
Qed.

Lemma running_entropy_default self w n off :
  running_entropy calculate w n off None self
  = running_entropy calculate w n off (Some (file_size self - off)) self.
Proof.
  unfold running_entropy, bind, get, raise, ret. simpl.
  case_decide; [reflexivity|]. case_decide; [lia | reflexivity].
Qed.

(** The three ways a call ends, by its arguments. *)
Lemma running_entropy_cases self w n off len :
  let L := default (file_size self - off) len in
  (~ (0 <= off <= file_size self - w) /\
   running_entropy calculate w n off len self
   = (Raises (IndexError (offset_not_valid off (file_size self) w)), self))
  \/ (0 <= off <= file_size self - w /\ L + off > file_size self /\
      running_entropy calculate w n off len self
      = (Raises (IndexError (length_not_valid L (file_size self) off)), self))
  \/ (0 <= off <= file_size self - w /\ L + off <= file_size self /\
      running_entropy calculate w n off len self
      = match calculate {| window := w; normalize := n |}
                (Py.slice (data self) off (L + off)) with
        | inr vals =>
            (Returns vals,
             set_running_entropy_data (Some vals) (recorded off L w self))
        | inl e => (Raises (EngineError e), recorded off L w self)
        end).
Proof.
  intros L.
  destruct (decide (0 <= off <= file_size self - w)) as [Hoff|Hoff].
  - right. assert (running_entropy calculate w n off len self
                   = running_entropy calculate w n off (Some L) self) as ->.
    { destruct len as [l|]; [reflexivity | apply running_entropy_default]. }
    destruct (decide (L + off > file_size self)) as [Hlen|Hlen].
    + left. auto using running_entropy_bad_length.
    + right. split; [assumption|]. split; [lia|].
      apply running_entropy_checked; [assumption | lia].
  - left. auto using running_entropy_bad_offset.
Qed.

(** No operation assigns to the buffer or to what was derived from it. *)
Lemma recorded_identity self off l w :
  identity (recorded off l w self) = identity self.
Proof. reflexivity. Qed.

Lemma running_entropy_identity self w n off len :
  identity (snd (running_entropy calculate w n off len self)) = identity self.
Proof.
  destruct (running_entropy_cases self w n off len)
    as [(_ & ->) | [(_ & _ & ->) | (_ & _ & ->)]]; try reflexivity.
  destruct (calculate _ _); reflexivity.
Qed.

Lemma running_entropy_parsedfile self w n off len :
  parsedfile (snd (running_entropy calculate w n off len self)) = parsedfile self.
Proof.
  destruct (running_entropy_cases self w n off len)
    as [(_ & ->) | [(_ & _ & ->) | (_ & _ & ->)]]; try reflexivity.
  destruct (calculate _ _); reflexivity.
Qed.

(** What a call returns or raises is decided by the buffer and its
    recorded size alone. *)
Lemma running_entropy_outcome self self' w n off len :
  data self' = data self -> file_size self' = file_size self ->
  fst (running_entropy calculate w n off len self')
  = fst (running_entropy calculate w n off len self).
Proof.
  intros Hd Hs.
  destruct (running_entropy_cases self w n off len)
    as [(H1 & ->) | [(H1 & H2 & ->) | (H1 & H2 & ->)]];
  destruct (running_entropy_cases self' w n off len)
    as [(H1' & ->) | [(H1' & H2' & ->) | (H1' & H2' & ->)]];
  rewrite ?Hd, ?Hs in *; try lia; try reflexivity.
  destruct (calculate _ _); reflexivity.
Qed.

End RangeChecks.

(** ** Requests to [running_entropy] *)

Section Requests.
Context {V E : Type}.
Variable calculate : RunningEntropy -> list byte -> E + list V.
Implicit Types self : FileObject V.

(** C2. A call to [running_entropy] whose offset is outside
    [0 <= offset <= file_size - window_size] ends in the offset's
    [IndexError] (the specification's InvalidRange) and in nothing else:
    nothing is clamped and the session is as it was. The offset's error
    is raised for no other offset, so a call that returns had its offset
    in range; and a window larger than the file leaves no offset in
    range, [0] included. *)
Theorem running_entropy_offset_range self w n off len :
  (~ (0 <= off <= file_size self - w) <->
   running_entropy calculate w n off len self
   = (Raises (IndexError (offset_not_valid off (file_size self) w)), self))
  /\ (forall vals self',
        running_entropy calculate w n off len self = (Returns vals, self') ->
        0 <= off <= file_size self - w)
  /\ (w > file_size self ->
      forall off',
        running_entropy calculate w n off' len self
        = (Raises (IndexError (offset_not_valid off' (file_size self) w)), self)).
Proof.
  split; [split|split].
  - apply running_entropy_bad_offset.
  - intros Hr Hoff.
    destruct (running_entropy_cases calculate self w n off len)
      as [(H1 & _) | [(_ & _ & Hc) | (_ & _ & Hc)]]; [lia | |];
      rewrite Hc in Hr; [congruence|].
    destruct (calculate _ _); congruence.
  - intros vals self' Hr.
    destruct (decide (0 <= off <= file_size self - w)) as [|Hoff]; [assumption|].
    rewrite (running_entropy_bad_offset calculate self w n off len Hoff) in Hr.
    congruence.
  - intros Hw off'. apply running_entropy_bad_offset. lia.
Qed.

(** C3. With a length given, [offset + length > file_size] ends the call
    in an [IndexError] (the length's own when the offset is in range) and
    leaves the session as it was; a length with
    [offset + length <= file_size], so also one that reaches the end of
    the file exactly, passes both checks: the call is the engine's run
    over [data[offset:offset+length]], recorded with that length. With
    the length left out the call is the one with
    [length = file_size - offset], whose span is the buffer from
    [offset] to its end. *)
Theorem running_entropy_length_check self w n off :
  (forall l, l + off > file_size self ->
     exists m,
       running_entropy calculate w n off (Some l) self
       = (Raises (IndexError m), self)
       /\ (0 <= off <= file_size self - w ->
           m = length_not_valid l (file_size self) off))
  /\ (forall l, 0 <= off <= file_size self - w -> l + off <= file_size self ->
        running_entropy calculate w n off (Some l) self
        = match calculate {| window := w; normalize := n |}
                  (Py.slice (data self) off (l + off)) with
          | inr vals =>
              (Returns vals,
               set_running_entropy_data (Some vals) (recorded off l w self))
          | inl e => (Raises (EngineError e), recorded off l w self)
          end)
  /\ running_entropy calculate w n off None self
     = running_entropy calculate w n off (Some (file_size self - off)) self
  /\ (session self -> 0 <= off <= file_size self - w ->
      Py.slice (data self) off (file_size self - off + off)
      = drop (Z.to_nat off) (data self)).
Proof.
  split; [|split; [|split]].
  - intros l Hl.
    destruct (decide (0 <= off <= file_size self - w)) as [Hoff|Hoff].
    + exists (length_not_valid l (file_size self) off). split; [|reflexivity].
      apply running_entropy_bad_length; assumption.
    + exists (offset_not_valid off (file_size self) w). split; [|tauto].
      apply running_entropy_bad_offset; assumption.
  - intros l Hoff Hl. apply running_entropy_checked; assumption.
  - apply running_entropy_default.
  - intros Hs Hoff. rewrite Hs in *. apply slice_to_end. lia.
Qed.

(** C10. A call to [running_entropy] that ends in one of its
    [IndexError]s (InvalidRange) leaves the session as it was before the
    call, and so the recorded offset, length, window size and series:
    both checks come before the first assignment. *)
Theorem running_entropy_invalid_range_writes_nothing self w n off len m :
  fst (running_entropy calculate w n off len self) = Raises (IndexError m) ->
  snd (running_entropy calculate w n off len self) = self
  /\ introspection (snd (running_entropy calculate w n off len self))
     = introspection self.
Proof.
  intros Hr.
  destruct (running_entropy_cases calculate self w n off len)
    as [(_ & Hc) | [(_ & _ & Hc) | (_ & _ & Hc)]];
    rewrite Hc in *; try (split; reflexivity).
  destruct (calculate _ _); simpl in Hr; congruence.
Qed.

End Requests.

(** ** The whole file *)

Section WholeFile.
Context {V E : Type}.
Variable calculate : RunningEntropy -> list byte -> E + list V.
Implicit Types self : FileObject V.

Lemma entropy_cases self n :
  entropy calculate n self
  = match calculate {| window := Z.of_nat (length (data self));
                       normalize := n |} (data self) with
    | inl e => (Raises (EngineError e), self)
    | inr [] => (Raises (IndexError list_index_out_of_range), self)
    | inr [v] => (Returns v, set_file_entropy (Some v) self)
    | inr (_ :: _ :: _) => (Raises Exception, self)
    end.
Proof.
  unfold entropy, bind, get, raise, ret, assign, engine, item0. simpl.
  destruct (calculate _ _) as [e|[|v [|v' vals]]]; reflexivity.
Qed.

Lemma entropy_identity self n :
  identity (snd (entropy calculate n self)) = identity self.
Proof.
  rewrite entropy_cases.
  destruct (calculate _ _) as [e|[|v [|v' vals]]]; reflexivity.
Qed.

Lemma running_entropy_whole self n :
  session self ->
  running_entropy calculate (file_size self) n 0 None self
  = match calculate {| window := Z.of_nat (length (data self));
                       normalize := n |} (data self) with
    | inr vals =>
        (Returns vals,
         set_running_entropy_data (Some vals)
           (recorded 0 (file_size self) (file_size self) self))
    | inl e =>
        (Raises (EngineError e),
         recorded 0 (file_size self) (file_size self) self)
    end.
Proof.
  intros Hs. rewrite running_entropy_default.
  rewrite running_entropy_checked by lia.
  replace (file_size self - 0) with (file_size self) by lia.
  rewrite Hs. rewrite slice_whole. reflexivity.
Qed.

(** C4. On a session, [entropy(normalize)] returns a value [v] exactly
    when [running_entropy(window_size=file_size, normalize, offset=0)]
    returns the one-entry series [[v]]: both are the engine's run over the
    entire buffer with the window set to its length. Whenever that run
    yields its single value, both return it. *)
Theorem entropy_is_whole_file_series self n :
  session self ->
  (forall v,
     fst (entropy calculate n self) = Returns v <->
     fst (running_entropy calculate (file_size self) n 0 None self)
     = Returns [v])
  /\ (forall v,
        calculate {| window := file_size self; normalize := n |} (data self)
        = inr [v] ->
        fst (entropy calculate n self) = Returns v
        /\ fst (running_entropy calculate (file_size self) n 0 None self)
           = Returns [v]).
Proof.
  intros Hs. rewrite entropy_cases, running_entropy_whole by assumption.
  rewrite Hs. split.
  - intros v.
    destruct (calculate _ _) as [e|[|v0 [|v1 vals]]]; simpl;
      split; congruence.
  - intros v ->. split; reflexivity.
Qed.

End WholeFile.

(** ** Regions *)

Section Regions.
Context {V E : Type}.
Variable calculate : RunningEntropy -> list byte -> E + list V.
Implicit Types self : FileObject V.
Implicit Types pf : ParsedFile V.

Lemma for_each_cons {A} (a : A) l (body : A -> method unit) self :
  for_each (V:=V) (E:=E) (a :: l) body self
  = match body a self with
    | (Returns _, self') => for_each l body self'
    | (Raises e, self') => (Raises e, self')
    end.
Proof. reflexivity. Qed.

(** What every run of the body keeps, the loop keeps. *)
Lemma for_each_invariant {A} (P : FileObject V -> Prop)
    (body : A -> method (V:=V) (E:=E) unit) l self :
  (forall a s, P s -> P (snd (body a s))) ->
  P self -> P (snd (for_each l body self)).
Proof.
  intros Hbody. revert self.
  induction l as [|a l IH]; intros self HP; [exact HP|].
  rewrite for_each_cons. specialize (Hbody a self HP).
  destruct (body a self) as [[[]|e] self']; simpl in *; auto.
Qed.

Lemma section_running_entropy_cases w n s self :
  section_running_entropy calculate w n s self
  = match Py.decode_utf8 (Name s) with
    | None => (Raises UnicodeDecodeError, self)
    | Some decoded =>
        match running_entropy calculate w n (PointerToRawData s)
                (Some (SizeOfRawData s)) self with
        | (Returns series, self') =>
            append_series
              {| ss_name := Py.rstrip_nul decoded;
                 ss_offset := PointerToRawData s;
                 ss_length := SizeOfRawData s;
                 ss_entropy_window_length := w;
                 ss_normalize := n;
                 ss_running_entropy := series |} self'
        | (Raises e, self') => (Raises e, self')
        end
    end.
Proof.
  unfold section_running_entropy, bind, decode.
  destruct (Py.decode_utf8 (Name s)); reflexivity.
Qed.

Lemma section_entropy_cases n s self :
  section_entropy calculate n s self
  = match Py.decode_utf8 (Name s) with
    | None => (Raises UnicodeDecodeError, self)
    | Some decoded =>
        match running_entropy calculate (SizeOfRawData s) n
                (PointerToRawData s) (Some (SizeOfRawData s)) self with
        | (Returns [], self') =>
            (Raises (IndexError list_index_out_of_range), self')
        | (Returns [v], self') =>
            append_value
              {| sv_name := Py.rstrip_nul decoded;
                 sv_offset := PointerToRawData s;
                 sv_length := SizeOfRawData s;
                 sv_normalize := n;
                 sv_entropy := v |} self'
        | (Returns (_ :: _ :: _), self') => (Raises Exception, self')
        | (Raises e, self') => (Raises e, self')
        end
    end.
Proof.
  unfold section_entropy, bind, decode.
  destruct (Py.decode_utf8 (Name s)); [|reflexivity]. simpl.
  destruct (running_entropy _ _ _ _ _ _) as [[[|v [|v' vals]]|e] self'];
    reflexivity.
Qed.

Lemma section_running_entropy_identity w n s self :
  identity (snd (section_running_entropy calculate w n s self))
  = identity self.
Proof.
  rewrite section_running_entropy_cases.
  destruct (Py.decode_utf8 (Name s)); [|reflexivity].
  pose proof (running_entropy_identity calculate self w n
                (PointerToRawData s) (Some (SizeOfRawData s))) as Hid.
  destruct (running_entropy _ _ _ _ _ _) as [[series|e] self']; exact Hid.
Qed.

Lemma section_entropy_identity n s self :
  identity (snd (section_entropy calculate n s self)) = identity self.
Proof.
  rewrite section_entropy_cases.
  destruct (Py.decode_utf8 (Name s)); [|reflexivity].
  pose proof (running_entropy_identity calculate self (SizeOfRawData s) n
                (PointerToRawData s) (Some (SizeOfRawData s))) as Hid.
  destruct (running_entropy _ _ _ _ _ _) as [[[|v [|v' vals]]|e] self'];
    exact Hid.
Qed.

Lemma parsed_file_running_entropy_identity self w n :
  identity (snd (parsed_file_running_entropy calculate w n self))
  = identity self.
Proof.
  unfold parsed_file_running_entropy, bind at 1, get.
  destruct (parsedfile self) as [pf|]; [|reflexivity].
  case_decide; [|reflexivity].
  unfold bind, in_parsedfile, assign, ret, get.
  match goal with
  | |- context [for_each ?l ?body ?s0] =>
      pose proof (for_each_invariant (fun s => identity s = identity self)
                    body l s0) as Hloop;
      destruct (for_each l body s0) as [[[]|e] self']
  end; simpl in *; apply Hloop; try reflexivity;
    intros a s Hs; rewrite section_running_entropy_identity; exact Hs.
Qed.

Lemma parsed_file_entropy_identity self n :
  identity (snd (parsed_file_entropy calculate n self)) = identity self.
Proof.
  unfold parsed_file_entropy, bind at 1, get.
  destruct (parsedfile self) as [pf|]; [|reflexivity].
  case_decide; [|reflexivity].
  unfold bind, in_parsedfile, assign, ret, get.
  match goal with
  | |- context [for_each ?l ?body ?s0] =>
      pose proof (for_each_invariant (fun s => identity s = identity self)
                    body l s0) as Hloop;
      destruct (for_each l body s0) as [[[]|e] self']
  end; simpl in *; apply Hloop; try reflexivity;
    intros a s Hs; rewrite section_entropy_identity; exact Hs.
Qed.

End Regions.

Section RegionBatch.
Context {V E : Type}.
Variable calculate : RunningEntropy -> list byte -> E + list V.
Variables (w : Z) (n : bool).
Implicit Types self : FileObject V.
Implicit Types pf : ParsedFile V.

Lemma section_running_entropy_returns self self1 s item :
  data self1 = data self -> file_size self1 = file_size self ->
  region_series calculate w n self s = Returns item ->
  section_running_entropy calculate w n s self1
  = append_series item
      (snd (running_entropy calculate w n (PointerToRawData s)
              (Some (SizeOfRawData s)) self1)).
Proof.
  intros Hd Hs Hitem. unfold region_series in Hitem.
  rewrite <- (running_entropy_outcome calculate self self1) in Hitem
    by assumption.
  rewrite section_running_entropy_cases.
  destruct (Py.decode_utf8 (Name s)) as [decoded|]; [|discriminate].
  destruct (running_entropy _ _ _ _ _ _) as [[series|e] self1'];
    simpl in *; congruence.
Qed.

Lemma section_running_entropy_raises self self1 s e :
  data self1 = data self -> file_size self1 = file_size self ->
  region_series calculate w n self s = Raises e ->
  fst (section_running_entropy calculate w n s self1) = Raises e.
Proof.
  intros Hd Hs Hitem. unfold region_series in Hitem.
  rewrite <- (running_entropy_outcome calculate self self1) in Hitem
    by assumption.
  rewrite section_running_entropy_cases.
  destruct (Py.decode_utf8 (Name s)) as [decoded|];
    [|simpl; congruence].
  destruct (running_entropy _ _ _ _ _ _) as [[series|e'] self1'];
    simpl in *; congruence.
Qed.

(** One run of the body on a region that returns: the item goes to the
    end of the list, the buffer stays. *)
Lemma section_running_entropy_appends self self1 s item pf1 acc :
  data self1 = data self -> file_size self1 = file_size self ->
  parsedfile self1 = Some pf1 -> pf_running_entropy pf1 = Some acc ->
  region_series calculate w n self s = Returns item ->
  exists self2 pf2,
    section_running_entropy calculate w n s self1 = (Returns tt, self2)
    /\ data self2 = data self /\ file_size self2 = file_size self
    /\ parsedfile self2 = Some pf2
    /\ pf_running_entropy pf2 = Some (acc ++ [item]).
Proof.
  intros Hd Hs Hpf Hacc Hitem.
  rewrite (section_running_entropy_returns self self1 s item) by assumption.
  pose proof (running_entropy_identity calculate self1 w n
                (PointerToRawData s) (Some (SizeOfRawData s))) as Hid.
  pose proof (running_entropy_parsedfile calculate self1 w n
                (PointerToRawData s) (Some (SizeOfRawData s))) as Hp.
  destruct (running_entropy _ _ _ _ _ _) as [r self1']. simpl in *.
  unfold identity in Hid. injection Hid as Hd' Hs' _ _.
  unfold append_series, in_parsedfile, assign. rewrite Hp, Hpf. simpl.
  eexists _, _. split; [reflexivity|]. simpl. rewrite Hacc.
  repeat split; congruence.
Qed.

Lemma for_each_regions_return self secs :
  forall items self1 pf1 acc,
    data self1 = data self -> file_size self1 = file_size self ->
    parsedfile self1 = Some pf1 -> pf_running_entropy pf1 = Some acc ->
    Forall2 (fun s item => region_series calculate w n self s = Returns item)
      secs items ->
    exists self2 pf2,
      for_each secs (section_running_entropy calculate w n) self1
      = (Returns tt, self2)
      /\ parsedfile self2 = Some pf2
      /\ pf_running_entropy pf2 = Some (acc ++ items).
Proof.
  induction secs as [|s secs IH];
    intros items self1 pf1 acc Hd Hs Hpf Hacc Hall;
    inversion Hall as [|? item ? items' Hitem Hrest]; subst.
  - exists self1, pf1. rewrite app_nil_r. auto.
  - rewrite for_each_cons.
    destruct (section_running_entropy_appends self self1 s item pf1 acc)
      as (self2 & pf2 & -> & Hd2 & Hs2 & Hpf2 & Hacc2); try assumption.
    destruct (IH items' self2 pf2 (acc ++ [item]))
      as (self3 & pf3 & Hloop & Hpf3 & Hacc3); try assumption.
    exists self3, pf3. rewrite <- app_assoc in Hacc3. auto.
Qed.

Lemma for_each_regions_raise self pre s post e :
  forall self1,
    data self1 = data self -> file_size self1 = file_size self ->
    Forall (fun r => exists item,
              region_series calculate w n self r = Returns item) pre ->
    region_series calculate w n self s = Raises e ->
    fst (for_each (pre ++ s :: post)
           (section_running_entropy calculate w n) self1) = Raises e.
Proof.
  induction pre as [|r pre IH]; intros self1 Hd Hs Hpre Hfail.
  - simpl app. rewrite for_each_cons.
    pose proof (section_running_entropy_raises self self1 s e Hd Hs Hfail)
      as Hr.
    destruct (section_running_entropy _ _ _ _ _) as [[[]|e'] self1'];
      simpl in *; congruence.
  - inversion Hpre as [|? ? [item Hitem] Hpre']; subst.
    simpl app. rewrite for_each_cons.
    rewrite (section_running_entropy_returns self self1 r item)
      by assumption.
    pose proof (running_entropy_identity calculate self1 w n
                  (PointerToRawData r) (Some (SizeOfRawData r))) as Hid.
    destruct (running_entropy _ _ _ _ _ _) as [x self1']. simpl in *.
    unfold identity in Hid. injection Hid as Hd' Hs' _ _.
    unfold append_series, in_parsedfile, assign.
    apply IH; simpl; try congruence; assumption.
Qed.

(** In a batch with a failing region there is a first one. *)
Lemma first_failing_region self secs :
  Exists (fun s => exists e, region_series calculate w n self s = Raises e)
    secs ->
  exists pre s post e,
    secs = pre ++ s :: post
    /\ Forall (fun r => exists item,
                 region_series calculate w n self r = Returns item) pre
    /\ region_series calculate w n self s = Raises e.
Proof.
  induction secs as [|a secs IH]; intros Hex; [inversion Hex|].
  destruct (region_series calculate w n self a) as [item|e] eqn:Ha.
  - inversion Hex as [? ? [e He]|? ? Hex']; subst; [congruence|].
    destruct (IH Hex') as (pre & s & post & e & -> & Hpre & Hs).
    exists (a :: pre), s, post, e. repeat split; eauto.
  - exists [], a, secs, e. repeat split; auto.
Qed.

Lemma parsed_file_running_entropy_pefile self pf :
  parsedfile self = Some pf -> pf_type pf = "pefile" ->
  parsed_file_running_entropy calculate w n self
  = match for_each (pf_file pf) (section_running_entropy calculate w n)
            (set_parsedfile
               (Some (set_pf_running_entropy (Some []) pf)) self) with
    | (Returns _, self') =>
        (Returns (parsedfile self' ≫= pf_running_entropy), self')
    | (Raises e, self') => (Raises e, self')
    end.
Proof.
  intros Hpf Hty.
  unfold parsed_file_running_entropy, bind, get, in_parsedfile, assign, ret.
  rewrite Hpf. case_decide; [|congruence]. simpl. rewrite Hpf. reflexivity.
Qed.

End RegionBatch.

Section RegionAnalysis.
Context {V E : Type}.
Variable calculate : RunningEntropy -> list byte -> E + list V.
Implicit Types self : FileObject V.
Implicit Types pf : ParsedFile V.

(** C6. On a session without a structured-format collaborator
    ([parsedfile] is [None]), [parsed_file_running_entropy] and
    [parsed_file_entropy] return [None] and raise nothing, and they leave
    the session as it was: [entropy] and [running_entropy] on it afterwards
    are what they were before. *)
Theorem region_analysis_unavailable self w n :
  parsedfile self = None ->
  parsed_file_running_entropy calculate w n self = (Returns None, self)
  /\ parsed_file_entropy calculate n self = (Returns None, self)
  /\ (forall n',
        entropy calculate n'
          (snd (parsed_file_running_entropy calculate w n self))
        = entropy calculate n' self
        /\ entropy calculate n' (snd (parsed_file_entropy calculate n self))
           = entropy calculate n' self)
  /\ (forall w' n' off len,
        running_entropy calculate w' n' off len
          (snd (parsed_file_running_entropy calculate w n self))
        = running_entropy calculate w' n' off len self
        /\ running_entropy calculate w' n' off len
             (snd (parsed_file_entropy calculate n self))
           = running_entropy calculate w' n' off len self).
Proof.
  intros Hpf.
  assert (parsed_file_running_entropy calculate w n self = (Returns None, self))
    as Hr.
  { unfold parsed_file_running_entropy, bind, get. rewrite Hpf. reflexivity. }
  assert (parsed_file_entropy calculate n self = (Returns None, self)) as He.
  { unfold parsed_file_entropy, bind, get. rewrite Hpf. reflexivity. }
  rewrite Hr, He. simpl. auto.
Qed.

(** C7. Over the sections of a parsed PE file the region operation fails
    fast and keeps the order. A region taken alone ([region_series]) is the
    decoding of its name followed by its own call to [running_entropy].
    When a region raises and every region before it returns, the batch
    raises that region's error and returns no list; so a batch with any
    failing region raises. When every region returns, the batch returns
    the items of the regions in input order, each the direct call under
    the region's descriptor. In particular, when the first region that
    fails has a name that decodes and its direct call to [running_entropy]
    for [(offset, length, window_size)] raises, the batch raises that
    error, the [IndexError] of the range checks among them; when its name
    is not UTF-8 the batch raises [UnicodeDecodeError] and the region's
    range is not looked at. *)
Theorem parsed_file_running_entropy_fail_fast self pf w n :
  parsedfile self = Some pf -> pf_type pf = "pefile" ->
  (forall pre s post e,
     pf_file pf = pre ++ s :: post ->
     Forall (fun r => exists item,
               region_series calculate w n self r = Returns item) pre ->
     region_series calculate w n self s = Raises e ->
     fst (parsed_file_running_entropy calculate w n self) = Raises e)
  /\ (Exists (fun s => exists e,
                region_series calculate w n self s = Raises e) (pf_file pf) ->
      exists e,
        fst (parsed_file_running_entropy calculate w n self) = Raises e)
  /\ (forall items,
        Forall2 (fun s item =>
                   region_series calculate w n self s = Returns item)
          (pf_file pf) items ->
        fst (parsed_file_running_entropy calculate w n self)
        = Returns (Some items))
  /\ (forall pre s post decoded e,
        pf_file pf = pre ++ s :: post ->
        Forall (fun r => exists item,
                  region_series calculate w n self r = Returns item) pre ->
        Py.decode_utf8 (Name s) = Some decoded ->
        fst (running_entropy calculate w n (PointerToRawData s)
               (Some (SizeOfRawData s)) self) = Raises e ->
        fst (parsed_file_running_entropy calculate w n self) = Raises e)
  /\ (forall pre s post,
        pf_file pf = pre ++ s :: post ->
        Forall (fun r => exists item,
                  region_series calculate w n self r = Returns item) pre ->
        Py.decode_utf8 (Name s) = None ->
        fst (parsed_file_running_entropy calculate w n self)
        = Raises UnicodeDecodeError).
Proof.
  intros Hpf Hty.
  rewrite (parsed_file_running_entropy_pefile calculate w n self pf Hpf Hty).
  set (self0 := set_parsedfile _ self).
  assert (forall pre s post e,
     pf_file pf = pre ++ s :: post ->
     Forall (fun r => exists item,
               region_series calculate w n self r = Returns item) pre ->
     region_series calculate w n self s = Raises e ->
     fst (match for_each (pf_file pf)
                  (section_running_entropy calculate w n) self0 with
          | (Returns _, self') =>
              (Returns (parsedfile self' ≫= pf_running_entropy), self')
          | (Raises e, self') => (Raises e, self')
          end) = Raises e) as Hfirst.
  { intros pre s post e Hsecs Hpre Hfail.
    pose proof (for_each_regions_raise calculate w n self pre s post e self0
                  eq_refl eq_refl Hpre Hfail) as Hloop.
    rewrite <- Hsecs in Hloop.
    destruct (for_each _ _ _) as [[[]|e'] self']; simpl in *; congruence. }
  split; [exact Hfirst|]. split; [|split; [|split]].
  - intros Hex.
    destruct (first_failing_region calculate w n self _ Hex)
      as (pre & s & post & e & Hsecs & Hpre & Hfail).
    exists e. eapply Hfirst; eassumption.
  - intros items Hall.
    destruct (for_each_regions_return calculate w n self (pf_file pf) items
                self0 (set_pf_running_entropy (Some []) pf) [])
      as (self2 & pf2 & -> & Hpf2 & Hacc2); try reflexivity; [assumption|].
    simpl. rewrite Hpf2. simpl. rewrite Hacc2. reflexivity.
  - intros pre s post decoded e Hsecs Hpre Hdec Hrun.
    apply (Hfirst pre s post e Hsecs Hpre).
    unfold region_series. rewrite Hdec, Hrun. reflexivity.
  - intros pre s post Hsecs Hpre Hdec.
    apply (Hfirst pre s post UnicodeDecodeError Hsecs Hpre).
    unfold region_series. rewrite Hdec. reflexivity.
Qed.

End RegionAnalysis.

(** ** Construction and the life of the buffer *)

Section Lifetime.
Context {V E : Type}.
Variable calculate : RunningEntropy -> list byte -> E + list V.
Variable magic_label : string -> list byte -> string.
Variable md5_hexdigest : list byte -> string.
Variable sha256_hexdigest : list byte -> string.
Variable pe_sections : string -> list byte -> option (list PESection).
Implicit Types self : FileObject V.

(** The loop reads the file to its end, and feeds both hash objects and
    the list every byte it reads. *)
Lemma read_loop_all rest st :
  read_data (read_loop rest st) = read_data st ++ rest
  /\ hash_md5 (read_loop rest st) = hash_md5 st ++ rest
  /\ hash_sha256 (read_loop rest st) = hash_sha256 st ++ rest.
Proof.
  revert st. induction rest as [|b rest IH]; intros st; simpl.
  - rewrite !app_nil_r. auto.
  - destruct (IH {| hash_md5 := hash_md5 st ++ [b];
                    hash_sha256 := hash_sha256 st ++ [b];
                    read_data := read_data st ++ [b];
                    read_log := read_log st
                                  ++ [read_1 (Some b); md5_update b;
                                      sha256_update b] |})
      as (-> & -> & ->).
    simpl. rewrite <- !app_assoc. auto.
Qed.

Lemma init_identity fs name self log :
  __init__ (E:=E) magic_label md5_hexdigest sha256_hexdigest pe_sections
    fs name = (Returns self, log) ->
  exists content,
    fs !! name = Some content
    /\ identity self
       = (content, Z.of_nat (length content),
          md5_hexdigest content, sha256_hexdigest content).
Proof.
  unfold __init__. destruct (fs !! name) as [content|]; [|discriminate].
  intros Hinit. exists content. split; [reflexivity|].
  unfold _read_file, _parse_file_type in Hinit. simpl in Hinit.
  destruct (read_loop_all content
              {| hash_md5 := []; hash_sha256 := []; read_data := [];
                 read_log := [open_rb name] |}) as (Hd & Hm & Hs).
  simpl in Hd, Hm, Hs.
  destruct (Py.re_match_PE_MS_Windows _);
    [destruct (pe_sections name content)|];
    inversion Hinit; subst; unfold identity; simpl;
    rewrite Hd, Hm, Hs; reflexivity.
Qed.

(** C8. For a path that is no file of the file system, construction
    raises [ValueError] (NotFound) and yields no object, and the only
    thing done is the existence test: nothing is opened, no byte is read
    and neither hash object is fed. *)
Theorem init_missing_file_not_found (fs : gmap string (list byte)) name :
  fs !! name = None ->
  __init__ (V:=V) (E:=E) magic_label md5_hexdigest sha256_hexdigest
    pe_sections fs name
  = (Raises (ValueError name), [os_path_exists name]).
Proof. intros Hname. unfold __init__. rewrite Hname. reflexivity. Qed.

(** C9. Construction sets the buffer to the file's bytes and derives
    the size and the two digests from them, and none of the four
    operations changes any of these, whatever it returns or raises. *)
Theorem buffer_and_identity_are_kept :
  (forall fs name self log,
     __init__ (E:=E) magic_label md5_hexdigest sha256_hexdigest pe_sections
       fs name = (Returns self, log) ->
     exists content,
       fs !! name = Some content
       /\ identity self
          = (content, Z.of_nat (length content),
             md5_hexdigest content, sha256_hexdigest content))
  /\ (forall self w n off len,
        identity (snd (running_entropy calculate w n off len self))
        = identity self)
  /\ (forall self n,
        identity (snd (entropy calculate n self)) = identity self)
  /\ (forall self w n,
        identity (snd (parsed_file_running_entropy calculate w n self))
        = identity self)
  /\ (forall self n,
        identity (snd (parsed_file_entropy calculate n self))
        = identity self).
Proof.
  split; [exact init_identity|].
  split; [apply running_entropy_identity|].
  split; [apply entropy_identity|].
  split; [apply parsed_file_running_entropy_identity
         |apply parsed_file_entropy_identity].
Qed.

End Lifetime.

(** ** The session over the engine of the specification *)

Section OverTheEngine.
Implicit Types self : FileObject EntropyWindow.

Lemma calculate_returns runent b vals :
  calculate runent b = inr vals ->
  1 <= window runent <= Z.of_nat (length b)
  /\ vals = map (shannon (normalize runent))
                (chunks (Z.to_nat (window runent)) b).
Proof.
  unfold calculate. case_decide; [|discriminate].
  intros [= <-]. auto.
Qed.

Lemma calculate_whole n b :
  b <> [] ->
  calculate {| window := Z.of_nat (length b); normalize := n |} b
  = inr [shannon n b].
Proof.
  intros Hb. unfold calculate. simpl.
  case_decide as Hw.
  - rewrite Nat2Z.id, chunks_whole by assumption. reflexivity.
  - destruct b; [congruence | simpl in Hw; lia].
Qed.

(** A window that covers the bytes it is given yields one entry. *)
Lemma calculate_covering_window w n b vals :
  calculate {| window := w; normalize := n |} b = inr vals ->
  Z.of_nat (length b) <= w -> length vals = 1%nat.
Proof.
  intros Hc Hw. apply calculate_returns in Hc as [Hr ->]. simpl in *.
  assert (w = Z.of_nat (length b)) as -> by lia.
  rewrite Nat2Z.id, chunks_whole; [reflexivity|].
  destruct b; [simpl in Hr; lia | discriminate].
Qed.

Lemma running_entropy_never_Exception {V E}
    (calc : RunningEntropy -> list byte -> E + list V)
    (s : FileObject V) w n off len :
  fst (running_entropy calc w n off len s) <> Raises Exception.
Proof.
  destruct (running_entropy_cases calc s w n off len)
    as [(_ & ->) | [(_ & _ & ->) | (_ & _ & ->)]]; try discriminate.
  destruct (calc _ _); discriminate.
Qed.

(** With the window set to the length asked for, a call that returns
    returns one entry. *)
Lemma running_entropy_window_is_length self l n off vals self' :
  running_entropy calculate l n off (Some l) self = (Returns vals, self') ->
  length vals = 1%nat.
Proof.
  intros Hr.
  destruct (running_entropy_cases calculate self l n off (Some l))
    as [(_ & Hc) | [(_ & _ & Hc) | (Hoff & _ & Hc)]];
    rewrite Hc in Hr; try discriminate.
  simpl in Hr.
  destruct (calculate _ _) as [e|vals0] eqn:Hcalc; [discriminate|].
  injection Hr as <- _.
  pose proof (calculate_returns _ _ _ Hcalc) as [Hw _]. simpl in Hw.
  eapply calculate_covering_window; [exact Hcalc|].
  apply slice_length_le; lia.
Qed.

Lemma section_entropy_never_Exception self n s :
  fst (section_entropy calculate n s self) <> Raises Exception.
Proof.
  rewrite section_entropy_cases.
  destruct (Py.decode_utf8 (Name s)) as [decoded|]; [|discriminate].
  pose proof (running_entropy_never_Exception calculate self
                (SizeOfRawData s) n (PointerToRawData s)
                (Some (SizeOfRawData s))) as Hne.
  pose proof (running_entropy_window_is_length self (SizeOfRawData s) n
                (PointerToRawData s)) as Hone.
  destruct (running_entropy _ _ _ _ _ _) as [[entval|e] self1];
    [|simpl in *; congruence].
  specialize (Hone entval self1 eq_refl).
  destruct entval as [|v [|v' entval]]; simpl in Hone; try lia.
  discriminate.
Qed.

Lemma for_each_section_entropy_never_Exception n secs :
  forall self,
    fst (for_each secs (section_entropy calculate n) self)
    <> Raises Exception.
Proof.
  induction secs as [|s secs IH]; intros self; [discriminate|].
  rewrite for_each_cons.
  pose proof (section_entropy_never_Exception self n s) as Hs.
  destruct (section_entropy _ _ _ _) as [[[]|e] self1]; [apply IH|exact Hs].
Qed.

End OverTheEngine.

Section Series.
Implicit Types self : FileObject EntropyWindow.

(** C1. On a session, a call to [running_entropy] that returns, for a
    valid combination of offset, length and window (the length, a count of
    bytes, left out or not negative), has sliced exactly [length] bytes (to the end of the buffer
    when the length is left out) and returns
    [ceil(length / window_size)] entries; entry [i] is the score of the
    bytes [i * window_size ..] of the span, [window_size] of them or, for
    the last entry, as many as are left, and is scored over that many
    bytes. *)
Theorem running_entropy_series_length self w n off len vals self' :
  session self ->
  running_entropy calculate w n off len self = (Returns vals, self') ->
  (forall l, len = Some l -> 0 <= l) ->
  let L := default (file_size self - off) len in
  let span := take (Z.to_nat L) (drop (Z.to_nat off) (data self)) in
  Z.of_nat (length span) = L
  /\ Z.of_nat (length vals) = ceil_div L w
  /\ (forall i : nat,
        (i < length vals)%nat ->
        exists v,
          vals !! i = Some v
          /\ v = shannon n (take (Z.to_nat w) (drop (i * Z.to_nat w) span))
          /\ Z.of_nat (ew_size v) = Z.min w (L - Z.of_nat i * w)).
Proof.
  intros Hs Hr Hlen L span.
  destruct (running_entropy_cases calculate self w n off len)
    as [(_ & Hc) | [(_ & _ & Hc) | (Hoff & HL & Hc)]];
    rewrite Hc in Hr; try discriminate.
  fold L in HL, Hr.
  destruct (calculate _ _) as [e|vals0] eqn:Hcalc; [discriminate|].
  injection Hr as <- _.
  apply calculate_returns in Hcalc as [Hw ->]. simpl in Hw. simpl normalize.
  simpl window.
  assert (0 <= L) as HL0.
  { subst L. destruct len as [l|]; simpl in *; [eauto | lia]. }
  rewrite Hs in HL.
  rewrite slice_inside in * by lia. fold span in Hw |- *.
  assert (Z.of_nat (length span) = L) as Hspan.
  { subst span. rewrite length_take, length_drop. lia. }
  split; [exact Hspan|].
  assert (Z.of_nat (length (chunks (Z.to_nat w) span)) = ceil_div L w) as Hn.
  { rewrite chunks_length by lia. rewrite Z2Nat.id, Hspan by lia.
    reflexivity. }
  rewrite length_map. split; [exact Hn|].
  intros i Hi.
  pose proof (ceil_div_is_ceiling L w ltac:(lia)) as Hceil.
  assert (Z.of_nat i * w < L) as Hiw by nia.
  eexists. rewrite list_lookup_fmap.
  rewrite chunks_lookup by nia. simpl.
  split; [reflexivity|]. split; [reflexivity|].
  unfold shannon. cbn [ew_size].
  rewrite length_take, length_drop. nia.
Qed.

(** C5. Over the engine of the specification the more-than-one-slice
    check of the two aggregate paths never fires: [entropy] on a buffer
    that is not empty returns the score of the one slice that is the whole
    buffer, neither [entropy] nor [parsed_file_entropy] ever raises the
    bare [Exception], and a call of [running_entropy] whose window is the
    length it is asked for returns, when it returns, exactly one entry. *)
Theorem aggregate_paths_single_slice self n :
  (data self <> [] ->
   fst (entropy calculate n self) = Returns (shannon n (data self)))
  /\ fst (entropy calculate n self) <> Raises Exception
  /\ fst (parsed_file_entropy calculate n self) <> Raises Exception
  /\ (forall off l vals self',
        running_entropy calculate l n off (Some l) self
        = (Returns vals, self') ->
        length vals = 1%nat).
Proof.
  split; [|split; [|split]].
  - intros Hd. rewrite entropy_cases, calculate_whole by assumption.
    reflexivity.
  - rewrite entropy_cases.
    destruct (calculate _ _) as [e|vals] eqn:Hcalc; [discriminate|].
    apply calculate_covering_window in Hcalc; [|lia].
    destruct vals as [|v [|v' vals]]; simpl in *; try lia. discriminate.
  - unfold parsed_file_entropy, bind at 1, get.
    destruct (parsedfile self) as [pf|]; [|discriminate].
    case_decide; [|discriminate].
    unfold bind, in_parsedfile, assign, ret, get.
    match goal with
    | |- context [for_each ?l ?body ?s0] =>
        pose proof (for_each_section_entropy_never_Exception n l s0) as Hloop;
        destruct (for_each l body s0) as [[[]|e] self1]
    end; [discriminate | simpl in *; congruence].
  - intros off l vals self'.
    apply running_entropy_window_is_length.
Qed.

End Series.

(** ** What a run leaves behind *)

Section Traces.
Context {V E : Type}.
Variable calculate : RunningEntropy -> list byte -> E + list V.
Variable magic_label : string -> list byte -> string.
Variable md5_hexdigest : list byte -> string.
Variable sha256_hexdigest : list byte -> string.
Variable pe_sections : string -> list byte -> option (list PESection).
Implicit Types self : FileObject V.
Implicit Types pf : ParsedFile V.

Lemma identity_session self self' :
  identity self' = identity self -> session self -> session self'.
Proof.
  unfold identity, session. intros [= Hd Hs _ _]. congruence.
Qed.

Lemma for_each_app {A} (l1 l2 : list A) (body : A -> method unit) self :
  for_each (V:=V) (E:=E) (l1 ++ l2) body self
  = match for_each l1 body self with
    | (Returns _, self') => for_each l2 body self'
    | (Raises e, self') => (Raises e, self')
    end.
Proof.
  revert self. induction l1 as [|a l1 IH]; intros self; [reflexivity|].
  simpl app. rewrite !for_each_cons.
  destruct (body a self) as [[[]|e] self']; [apply IH | reflexivity].
Qed.

(** X1. A call to [running_entropy] that passes both range checks has
    recorded its offset, its length (the default one when none was given)
    and its window size by the time the engine runs: they are the session's
    after the call whether the engine returned or raised. The recorded
    series is the returned one, and the old one when the engine raised,
    which is the only way such a call can raise. *)
Theorem running_entropy_records_request self w n off len :
  0 <= off <= file_size self - w ->
  (forall l, len = Some l -> l + off <= file_size self) ->
  let L := default (file_size self - off) len in
  let r := running_entropy calculate w n off len self in
  running_entropy_offset (snd r) = Some off
  /\ running_entropy_length (snd r) = Some L
  /\ running_entropy_window_size (snd r) = w
  /\ (forall vals, fst r = Returns vals ->
        running_entropy_data (snd r) = Some vals)
  /\ (forall e, fst r = Raises e ->
        running_entropy_data (snd r) = running_entropy_data self
        /\ exists e', e = EngineError e').
Proof.
  intros Hoff Hlen L r. subst r.
  destruct (running_entropy_cases calculate self w n off len)
    as [(Hbad & _) | [(_ & Hbad & _) | (_ & _ & Hc)]].
  - lia.
  - fold L in Hbad. subst L.
    destruct len as [l|]; simpl in Hbad; [specialize (Hlen l eq_refl)|]; lia.
  - fold L in Hc. rewrite Hc.
    destruct (calculate _ _) as [e|vals]; simpl;
      repeat split; try congruence.
    match goal with H : Raises _ = Raises _ |- _ => injection H as <- end.
    eauto.
Qed.

(** X2. The batch that aborts returns nothing, but the session keeps
    what was done: when a region raises, on a name that is no UTF-8 or in
    its call to [running_entropy], and the regions before it return, their
    items, in order, are the list under
    [parsedfile['running_entropy']['sections']] after the call. *)
Theorem parsed_file_running_entropy_keeps_partial_list
    self pf w n pre s post e items :
  parsedfile self = Some pf -> pf_type pf = "pefile" ->
  pf_file pf = pre ++ s :: post ->
  Forall2 (fun r item => region_series calculate w n self r = Returns item)
    pre items ->
  region_series calculate w n self s = Raises e ->
  parsedfile (snd (parsed_file_running_entropy calculate w n self))
    ≫= pf_running_entropy
  = Some items.
Proof.
  intros Hpf Hty Hsecs Hpre Hfail.
  rewrite (parsed_file_running_entropy_pefile calculate w n self pf Hpf Hty).
  set (self0 := set_parsedfile _ self).
  rewrite Hsecs, for_each_app.
  pose proof (for_each_invariant (fun s0 => identity s0 = identity self)
                (section_running_entropy calculate w n) pre self0) as Hinv.
  destruct (for_each_regions_return calculate w n self pre items self0
              (set_pf_running_entropy (Some []) pf) [])
    as (self1 & pf1 & Hloop & Hpf1 & Hacc1); try reflexivity; [assumption|].
  rewrite Hloop in Hinv |- *. simpl in Hinv.
  assert (identity self1 = identity self) as [= Hd Hs _ _].
  { apply Hinv; [|reflexivity].
    intros a s0 Hs0. rewrite section_running_entropy_identity. exact Hs0. }
  rewrite for_each_cons.
  pose proof (section_running_entropy_raises calculate w n self self1 s e
                Hd Hs Hfail) as Hr.
  rewrite section_running_entropy_cases in Hr |- *.
  destruct (Py.decode_utf8 (Name s)) as [decoded|].
  - pose proof (running_entropy_parsedfile calculate self1 w n
                  (PointerToRawData s) (Some (SizeOfRawData s))) as Hp.
    destruct (running_entropy _ _ _ _ _ _) as [[series|e'] self2];
      simpl in Hr; [discriminate|].
    simpl in *. rewrite Hp, Hpf1. simpl. exact Hacc1.
  - simpl. rewrite Hpf1. simpl. exact Hacc1.
Qed.

(** X3. Construction yields a session, an object whose [file_size] is the
    length of its buffer, and each of the four operations takes a session to
    a session. *)
Theorem session_is_kept :
  (forall fs name self log,
     __init__ (E:=E) magic_label md5_hexdigest sha256_hexdigest pe_sections
       fs name = (Returns self, log) ->
     session self)
  /\ (forall self w n off len,
        session self ->
        session (snd (running_entropy calculate w n off len self)))
  /\ (forall self n,
        session self -> session (snd (entropy calculate n self)))
  /\ (forall self w n,
        session self ->
        session (snd (parsed_file_running_entropy calculate w n self)))
  /\ (forall self n,
        session self ->
        session (snd (parsed_file_entropy calculate n self))).
Proof.
  split; [|split; [|split; [|split]]].
  - intros fs name self log Hinit.
    destruct (init_identity magic_label md5_hexdigest sha256_hexdigest
                pe_sections fs name self log Hinit)
      as (content & _ & [= Hd Hs _ _]).
    unfold session. congruence.
  - intros self w n off len. apply identity_session.
    apply running_entropy_identity.
  - intros self n. apply identity_session. apply entropy_identity.
  - intros self w n. apply identity_session.
    apply parsed_file_running_entropy_identity.
  - intros self n. apply identity_session.
    apply parsed_file_entropy_identity.
Qed.

(** X4. What [running_entropy] returns or raises for given arguments does
    not depend on what ran before: after any run of any of the four
    operations the same call has the same outcome, so a call made twice
    returns the same series twice. *)
Theorem running_entropy_is_repeatable self w n off len :
  (forall w0 n0 off0 len0,
     fst (running_entropy calculate w n off len
            (snd (running_entropy calculate w0 n0 off0 len0 self)))
     = fst (running_entropy calculate w n off len self))
  /\ (forall n0,
        fst (running_entropy calculate w n off len
               (snd (entropy calculate n0 self)))
        = fst (running_entropy calculate w n off len self))
  /\ (forall w0 n0,
        fst (running_entropy calculate w n off len
               (snd (parsed_file_running_entropy calculate w0 n0 self)))
        = fst (running_entropy calculate w n off len self))
  /\ (forall n0,
        fst (running_entropy calculate w n off len
               (snd (parsed_file_entropy calculate n0 self)))
        = fst (running_entropy calculate w n off len self)).
Proof.
  assert (forall self', identity self' = identity self ->
            fst (running_entropy calculate w n off len self')
            = fst (running_entropy calculate w n off len self)) as Hsame.
  { intros self' [= Hd Hs _ _]. apply running_entropy_outcome; assumption. }
  repeat split; intros; apply Hsame.
  - apply running_entropy_identity.
  - apply entropy_identity.
  - apply parsed_file_running_entropy_identity.
  - apply parsed_file_entropy_identity.
Qed.

End Traces.

(** ** What the operations write *)

Section Writes.
Context {V E : Type}.
Variable calculate : RunningEntropy -> list byte -> E + list V.
Implicit Types self : FileObject V.
Implicit Types pf : ParsedFile V.

(** What [running_entropy] and every write under
    [parsedfile['running_entropy']] keep, [parsed_file_running_entropy]
    keeps. *)
Lemma parsed_file_running_entropy_keeps (P : FileObject V -> Prop) self w n :
  (forall s w0 n0 off len,
     P s -> P (snd (running_entropy calculate w0 n0 off len s))) ->
  (forall s (g : ParsedFile V -> option (list (section_series V))),
     P s ->
     P (set_parsedfile
          ((fun pf => set_pf_running_entropy (g pf) pf) <$> parsedfile s) s)) ->
  P self -> P (snd (parsed_file_running_entropy calculate w n self)).
Proof.
  intros Hrun Hwrite HP.
  unfold parsed_file_running_entropy, bind at 1, get.
  destruct (parsedfile self) as [pf|] eqn:Hpf; [|exact HP].
  case_decide; [|exact HP].
  unfold bind, in_parsedfile, assign, ret, get.
  match goal with
  | |- context [for_each ?l ?body ?s0] =>
      pose proof (for_each_invariant P body l s0) as Hloop;
      destruct (for_each l body s0) as [[[]|e] self']
  end; simpl in *; apply Hloop;
    try (apply (Hwrite self (fun _ => Some [])); exact HP).
  all: intros a s Hs; rewrite section_running_entropy_cases;
    destruct (Py.decode_utf8 (Name a)) as [decoded|]; [|exact Hs];
    specialize (Hrun s w n (PointerToRawData a) (Some (SizeOfRawData a)) Hs);
    destruct (running_entropy _ _ _ _ _ _) as [[series|e0] s1];
    simpl in *; [|exact Hrun];
    exact (Hwrite s1 (fun pf0 => _ <$> pf_running_entropy pf0) Hrun).
Qed.

(** The same for [parsed_file_entropy] and the writes under
    [parsedfile['entropy']]. *)
Lemma parsed_file_entropy_keeps (P : FileObject V -> Prop) self n :
  (forall s w0 n0 off len,
     P s -> P (snd (running_entropy calculate w0 n0 off len s))) ->
  (forall s (g : ParsedFile V -> option (list (section_value V))),
     P s ->
     P (set_parsedfile
          ((fun pf => set_pf_entropy (g pf) pf) <$> parsedfile s) s)) ->
  P self -> P (snd (parsed_file_entropy calculate n self)).
Proof.
  intros Hrun Hwrite HP.
  unfold parsed_file_entropy, bind at 1, get.
  destruct (parsedfile self) as [pf|] eqn:Hpf; [|exact HP].
  case_decide; [|exact HP].
  unfold bind, in_parsedfile, assign, ret, get.
  match goal with
  | |- context [for_each ?l ?body ?s0] =>
      pose proof (for_each_invariant P body l s0) as Hloop;
      destruct (for_each l body s0) as [[[]|e] self']
  end; simpl in *; apply Hloop;
    try (apply (Hwrite self (fun _ => Some [])); exact HP).
  all: intros a s Hs; rewrite section_entropy_cases;
    destruct (Py.decode_utf8 (Name a)) as [decoded|]; [|exact Hs];
    specialize (Hrun s (SizeOfRawData a) n (PointerToRawData a)
                  (Some (SizeOfRawData a)) Hs);
    destruct (running_entropy _ _ _ _ _ _) as [[[|v [|v' vals]]|e0] s1];
    simpl in *; try exact Hrun;
    exact (Hwrite s1 (fun pf0 => _ <$> pf_entropy pf0) Hrun).
Qed.

Lemma running_entropy_writes self w n off len :
  let self' := snd (running_entropy calculate w n off len self) in
  labels self' = labels self
  /\ parsedfile self' = parsedfile self
  /\ file_entropy self' = file_entropy self.
Proof.
  destruct (running_entropy_cases calculate self w n off len)
    as [(_ & ->) | [(_ & _ & ->) | (_ & _ & ->)]]; simpl; auto.
  destruct (calculate _ _); simpl; auto.
Qed.

Lemma entropy_writes self n :
  let r := entropy calculate n self in
  labels (snd r) = labels self
  /\ parsedfile (snd r) = parsedfile self
  /\ introspection (snd r) = introspection self
  /\ (forall v, fst r = Returns v -> file_entropy (snd r) = Some v)
  /\ (forall e, fst r = Raises e -> snd r = self).
Proof.
  intros r. subst r. rewrite entropy_cases.
  destruct (calculate _ _) as [e|[|v [|v' vals]]]; simpl;
    repeat split; congruence.
Qed.

Lemma parsed_file_running_entropy_writes self w n :
  let self' := snd (parsed_file_running_entropy calculate w n self) in
  labels self' = labels self
  /\ layout self' = layout self
  /\ file_entropy self' = file_entropy self
  /\ parsedfile self' ≫= pf_entropy = parsedfile self ≫= pf_entropy.
Proof.
  apply (parsed_file_running_entropy_keeps
           (fun s => labels s = labels self
                     /\ layout s = layout self
                     /\ file_entropy s = file_entropy self
                     /\ parsedfile s ≫= pf_entropy
                        = parsedfile self ≫= pf_entropy)).
  - intros s w0 n0 off len (H1 & H2 & H3 & H4).
    destruct (running_entropy_writes s w0 n0 off len) as (G1 & G2 & G3).
    unfold layout in *. rewrite G1, G2, G3. auto.
  - intros s g (H1 & H2 & H3 & H4). unfold layout in *.
    rewrite <- H2, <- H4. destruct (parsedfile s); simpl; auto.
  - auto.
Qed.

Lemma parsed_file_entropy_writes self n :
  let self' := snd (parsed_file_entropy calculate n self) in
  labels self' = labels self
  /\ layout self' = layout self
  /\ file_entropy self' = file_entropy self
  /\ parsedfile self' ≫= pf_running_entropy
     = parsedfile self ≫= pf_running_entropy.
Proof.
  apply (parsed_file_entropy_keeps
           (fun s => labels s = labels self
                     /\ layout s = layout self
                     /\ file_entropy s = file_entropy self
                     /\ parsedfile s ≫= pf_running_entropy
                        = parsedfile self ≫= pf_running_entropy)).
  - intros s w0 n0 off len (H1 & H2 & H3 & H4).
    destruct (running_entropy_writes s w0 n0 off len) as (G1 & G2 & G3).
    unfold layout in *. rewrite G1, G2, G3. auto.
  - intros s g (H1 & H2 & H3 & H4). unfold layout in *.
    rewrite <- H2, <- H4. destruct (parsedfile s); simpl; auto.
  - auto.
Qed.

(** X5. Each operation writes its own attributes and no others.
    [running_entropy] leaves the file's name and type label, the parsed
    file and [file_entropy]; [entropy] leaves the name and label, the parsed
    file and the record of the last [running_entropy] run, sets
    [file_entropy] to what it returns, and leaves the whole object as it was
    when it raises; the two region operations leave the name and label, the
    kind and the sections of the parsed file and [file_entropy], and each
    leaves the other's report under [parsedfile]. *)
Theorem operations_write_their_own_attributes self :
  (forall w n off len,
     let self' := snd (running_entropy calculate w n off len self) in
     labels self' = labels self
     /\ parsedfile self' = parsedfile self
     /\ file_entropy self' = file_entropy self)
  /\ (forall n,
        let r := entropy calculate n self in
        labels (snd r) = labels self
        /\ parsedfile (snd r) = parsedfile self
        /\ introspection (snd r) = introspection self
        /\ (forall v, fst r = Returns v -> file_entropy (snd r) = Some v)
        /\ (forall e, fst r = Raises e -> snd r = self))
  /\ (forall w n,
        let self' := snd (parsed_file_running_entropy calculate w n self) in
        labels self' = labels self
        /\ layout self' = layout self
        /\ file_entropy self' = file_entropy self
        /\ parsedfile self' ≫= pf_entropy = parsedfile self ≫= pf_entropy)
  /\ (forall n,
        let self' := snd (parsed_file_entropy calculate n self) in
        labels self' = labels self
        /\ layout self' = layout self
        /\ file_entropy self' = file_entropy self
        /\ parsedfile self' ≫= pf_running_entropy
           = parsedfile self ≫= pf_running_entropy).
Proof.
  split; [|split; [|split]].
  - intros w n off len. apply running_entropy_writes.
  - intros n. apply entropy_writes.
  - intros w n. apply parsed_file_running_entropy_writes.
  - intros n. apply parsed_file_entropy_writes.
Qed.

End Writes.

(** ** Batches over the sections *)

Section Batches.
Context {V E : Type}.
Variable calculate : RunningEntropy -> list byte -> E + list V.
Implicit Types self : FileObject V.
Implicit Types pf : ParsedFile V.

Lemma batch_returns {A B} (f : A -> outcome E B) l bs :
  batch f l = Returns bs <-> Forall2 (fun a b => f a = Returns b) l bs.
Proof.
  revert bs. induction l as [|a l IH]; intros bs; simpl.
  - split.
    + intros [= <-]. constructor.
    + intros Hall. inversion Hall. reflexivity.
  - destruct (f a) as [b|e] eqn:Hfa.
    + destruct (batch f l) as [bs'|e].
      * split.
        -- intros [= <-]. constructor; [assumption | apply IH; reflexivity].
        -- intros Hall. inversion Hall as [|? b' ? bs'' Hb Hrest]; subst.
           apply IH in Hrest. congruence.
      * split; [discriminate|].
        intros Hall. inversion Hall as [|? b' ? bs'' Hb Hrest]; subst.
        apply IH in Hrest. discriminate.
    + split; [discriminate|].
      intros Hall. inversion Hall; congruence.
Qed.

Lemma batch_raises {A B} (f : A -> outcome E B) l e :
  batch f l = Raises e ->
  exists pre a post,
    l = pre ++ a :: post
    /\ Forall (fun r => exists b, f r = Returns b) pre
    /\ f a = Raises e.
Proof.
  induction l as [|a l IH]; simpl; [discriminate|].
  destruct (f a) as [b|e'] eqn:Hfa.
  - destruct (batch f l) as [bs|e'']; [discriminate|].
    intros [= <-]. destruct (IH eq_refl) as (pre & a' & post & -> & Hpre & Ha').
    exists (a :: pre), a', post. repeat split; eauto.
  - intros [= <-]. exists [], a, l. repeat split; auto.
Qed.

Lemma batch_ext {A B} (f g : A -> outcome E B) l :
  (forall a, f a = g a) -> batch f l = batch g l.
Proof.
  intros Hfg. induction l as [|a l IH]; simpl; [reflexivity|].
  rewrite Hfg, IH. reflexivity.
Qed.

Lemma batch_length {A B} (f : A -> outcome E B) l bs :
  batch f l = Returns bs -> length bs = length l.
Proof.
  intros Hb. apply batch_returns in Hb.
  induction Hb; simpl; congruence.
Qed.

(** A loop whose body does to the session what [f] says of each item,
    under an invariant [I] of the session and the items so far, does what
    the batch of [f] says. *)
Lemma for_each_batch {A B} (f : A -> outcome E B)
    (body : A -> method (V:=V) (E:=E) unit)
    (I : FileObject V -> list B -> Prop) :
  (forall a b s acc,
     I s acc -> f a = Returns b ->
     exists s', body a s = (Returns tt, s') /\ I s' (acc ++ [b])) ->
  (forall a e s acc,
     I s acc -> f a = Raises e -> fst (body a s) = Raises e) ->
  forall l s acc,
    I s acc ->
    match batch f l with
    | Returns bs =>
        exists s', for_each l body s = (Returns tt, s') /\ I s' (acc ++ bs)
    | Raises e => fst (for_each l body s) = Raises e
    end.
Proof.
  intros Hret Hraise. induction l as [|a l IH]; intros s acc HI; simpl batch.
  - exists s. rewrite app_nil_r. auto.
  - rewrite for_each_cons. destruct (f a) as [b|e] eqn:Hfa.
    + destruct (Hret a b s acc HI Hfa) as (s' & -> & HI').
      specialize (IH s' (acc ++ [b]) HI').
      destruct (batch f l) as [bs|e]; [|exact IH].
      destruct IH as (s'' & -> & HI''). exists s''.
      rewrite <- app_assoc in HI''. auto.
    + specialize (Hraise a e s acc HI Hfa).
      destruct (body a s) as [[[]|e'] s']; simpl in *; congruence.
Qed.

Lemma region_series_outcome self self' w n s :
  data self' = data self -> file_size self' = file_size self ->
  region_series calculate w n self' s = region_series calculate w n self s.
Proof.
  intros Hd Hs. unfold region_series.
  rewrite (running_entropy_outcome calculate self self') by assumption.
  reflexivity.
Qed.

Lemma region_value_outcome self self' n s :
  data self' = data self -> file_size self' = file_size self ->
  region_value calculate n self' s = region_value calculate n self s.
Proof.
  intros Hd Hs. unfold region_value.
  rewrite (running_entropy_outcome calculate self self') by assumption.
  reflexivity.
Qed.

Lemma parsed_file_running_entropy_is_batch self pf w n :
  parsedfile self = Some pf -> pf_type pf = "pefile" ->
  fst (parsed_file_running_entropy calculate w n self)
  = match batch (region_series calculate w n self) (pf_file pf) with
    | Returns items => Returns (Some items)
    | Raises e => Raises e
    end.
Proof.
  intros Hpf Hty.
  rewrite (parsed_file_running_entropy_pefile calculate w n self pf Hpf Hty).
  set (self0 := set_parsedfile _ self).
  pose proof (for_each_batch (region_series calculate w n self)
                (section_running_entropy calculate w n)
                (fun s acc =>
                   data s = data self /\ file_size s = file_size self
                   /\ exists pf1, parsedfile s = Some pf1
                                  /\ pf_running_entropy pf1 = Some acc))
    as Hloop.
  specialize (Hloop
    ltac:(intros a b s acc (Hd & Hs & pf1 & Hpf1 & Hacc) Hab;
          destruct (section_running_entropy_appends calculate w n self s a b
                      pf1 acc Hd Hs Hpf1 Hacc Hab)
            as (s2 & pf2 & Hbody & Hd2 & Hs2 & Hpf2 & Hacc2);
          exists s2; eauto 10)
    ltac:(intros a e s acc (Hd & Hs & _) Hae;
          apply (section_running_entropy_raises calculate w n self);
          assumption)
    (pf_file pf) self0 []
    ltac:(subst self0; simpl; eauto)).
  destruct (batch _ _) as [items|e].
  - destruct Hloop as (s' & -> & _ & _ & pf1 & Hpf1 & Hacc).
    simpl. rewrite Hpf1. simpl. rewrite Hacc. reflexivity.
  - destruct (for_each _ _ _) as [[[]|e'] s']; simpl in *; congruence.
Qed.

Lemma section_entropy_appends self self1 n s item pf1 acc :
  data self1 = data self -> file_size self1 = file_size self ->
  parsedfile self1 = Some pf1 -> pf_entropy pf1 = Some acc ->
  region_value calculate n self s = Returns item ->
  exists self2 pf2,
    section_entropy calculate n s self1 = (Returns tt, self2)
    /\ data self2 = data self /\ file_size self2 = file_size self
    /\ parsedfile self2 = Some pf2
    /\ pf_entropy pf2 = Some (acc ++ [item]).
Proof.
  intros Hd Hs Hpf Hacc Hitem. unfold region_value in Hitem.
  rewrite <- (running_entropy_outcome calculate self self1) in Hitem
    by assumption.
  pose proof (running_entropy_identity calculate self1 (SizeOfRawData s) n
                (PointerToRawData s) (Some (SizeOfRawData s))) as Hid.
  pose proof (running_entropy_parsedfile calculate self1 (SizeOfRawData s) n
                (PointerToRawData s) (Some (SizeOfRawData s))) as Hp.
  rewrite section_entropy_cases.
  destruct (Py.decode_utf8 (Name s)) as [decoded|]; [|discriminate].
  destruct (running_entropy _ _ _ _ _ _) as [[entval|e] self1'];
    simpl in *; [|discriminate].
  destruct entval as [|v [|v' entval]]; try discriminate.
  injection Hitem as <-.
  unfold identity in Hid. injection Hid as Hd' Hs' _ _.
  unfold append_value, in_parsedfile, assign. rewrite Hp, Hpf. simpl.
  eexists _, _. split; [reflexivity|]. simpl. rewrite Hacc.
  repeat split; congruence.
Qed.

Lemma section_entropy_raises self self1 n s e :
  data self1 = data self -> file_size self1 = file_size self ->
  region_value calculate n self s = Raises e ->
  fst (section_entropy calculate n s self1) = Raises e.
Proof.
  intros Hd Hs Hitem. unfold region_value in Hitem.
  rewrite <- (running_entropy_outcome calculate self self1) in Hitem
    by assumption.
  rewrite section_entropy_cases.
  destruct (Py.decode_utf8 (Name s)) as [decoded|];
    [|simpl; congruence].
  destruct (running_entropy _ _ _ _ _ _) as [[entval|e'] self1'];
    simpl in *; [|congruence].
  destruct entval as [|v [|v' entval]]; try discriminate;
    simpl in *; congruence.
Qed.

Lemma parsed_file_entropy_pefile self pf n :
  parsedfile self = Some pf -> pf_type pf = "pefile" ->
  parsed_file_entropy calculate n self
  = match for_each (pf_file pf) (section_entropy calculate n)
            (set_parsedfile (Some (set_pf_entropy (Some []) pf)) self) with
    | (Returns _, self') =>
        (Returns (parsedfile self' ≫= pf_entropy), self')
    | (Raises e, self') => (Raises e, self')
    end.
Proof.
  intros Hpf Hty.
  unfold parsed_file_entropy, bind, get, in_parsedfile, assign, ret.
  rewrite Hpf. case_decide; [|congruence]. simpl. rewrite Hpf. reflexivity.
Qed.

Lemma parsed_file_entropy_batch self pf n :
  parsedfile self = Some pf -> pf_type pf = "pefile" ->
  fst (parsed_file_entropy calculate n self)
  = match batch (region_value calculate n self) (pf_file pf) with
    | Returns items => Returns (Some items)
    | Raises e => Raises e
    end.
Proof.
  intros Hpf Hty.
  rewrite (parsed_file_entropy_pefile self pf n Hpf Hty).
  set (self0 := set_parsedfile _ self).
  pose proof (for_each_batch (region_value calculate n self)
                (section_entropy calculate n)
                (fun s acc =>
                   data s = data self /\ file_size s = file_size self
                   /\ exists pf1, parsedfile s = Some pf1
                                  /\ pf_entropy pf1 = Some acc))
    as Hloop.
  specialize (Hloop
    ltac:(intros a b s acc (Hd & Hs & pf1 & Hpf1 & Hacc) Hab;
          destruct (section_entropy_appends self s n a b
                      pf1 acc Hd Hs Hpf1 Hacc Hab)
            as (s2 & pf2 & Hbody & Hd2 & Hs2 & Hpf2 & Hacc2);
          exists s2; eauto 10)
    ltac:(intros a e s acc (Hd & Hs & _) Hae;
          apply (section_entropy_raises self); assumption)
    (pf_file pf) self0 []
    ltac:(subst self0; simpl; eauto)).
  destruct (batch _ _) as [items|e].
  - destruct Hloop as (s' & -> & _ & _ & pf1 & Hpf1 & Hacc).
    simpl. rewrite Hpf1. simpl. rewrite Hacc. reflexivity.
  - destruct (for_each _ _ _) as [[[]|e'] s']; simpl in *; congruence.
Qed.

(** X6. Over the sections of a parsed PE file, [parsed_file_entropy]
    is the batch of its regions taken one by one on the session as it was:
    each region is the decoding of its name, which raises
    [UnicodeDecodeError] on a name that is no UTF-8, and then the direct
    call [running_entropy(length, normalize, offset, length)], which gives
    the region's item when the series has one entry, [IndexError] when it
    has none and the bare [Exception] when it has more; the first region
    that raises ends the batch with what it raised, and otherwise the items
    come back in section order, one for each section. *)
Theorem parsed_file_entropy_is_batch self pf n :
  parsedfile self = Some pf -> pf_type pf = "pefile" ->
  fst (parsed_file_entropy calculate n self)
  = match batch (region_value calculate n self) (pf_file pf) with
    | Returns items => Returns (Some items)
    | Raises e => Raises e
    end
  /\ (forall items,
        fst (parsed_file_entropy calculate n self) = Returns (Some items) ->
        length items = length (pf_file pf)
        /\ Forall2 (fun s item =>
                      exists decoded v,
                        Py.decode_utf8 (Name s) = Some decoded
                        /\ fst (running_entropy calculate (SizeOfRawData s) n
                                  (PointerToRawData s)
                                  (Some (SizeOfRawData s)) self)
                           = Returns [v]
                        /\ item = {| sv_name := Py.rstrip_nul decoded;
                                     sv_offset := PointerToRawData s;
                                     sv_length := SizeOfRawData s;
                                     sv_normalize := n;
                                     sv_entropy := v |})
             (pf_file pf) items)
  /\ (forall pre s post,
        pf_file pf = pre ++ s :: post ->
        Forall (fun r => exists item,
                  region_value calculate n self r = Returns item) pre ->
        Py.decode_utf8 (Name s) = None ->
        fst (parsed_file_entropy calculate n self)
        = Raises UnicodeDecodeError)
  /\ (forall pre s post e,
        pf_file pf = pre ++ s :: post ->
        Forall (fun r => exists item,
                  region_value calculate n self r = Returns item) pre ->
        region_value calculate n self s = Raises e ->
        fst (parsed_file_entropy calculate n self) = Raises e).
Proof.
  intros Hpf Hty.
  rewrite (parsed_file_entropy_batch self pf n Hpf Hty).
  split; [reflexivity|]. split.
  - intros items Hr.
    destruct (batch _ _) as [items'|e] eqn:Hb; [|discriminate].
    injection Hr as ->. split; [eapply batch_length; eassumption|].
    apply batch_returns in Hb.
    eapply Forall2_impl; [exact Hb|].
    intros s item Hs. unfold region_value in Hs.
    destruct (Py.decode_utf8 (Name s)) as [decoded|]; [|discriminate].
    destruct (fst (running_entropy _ _ _ _ _ _)) as [[|v [|v' vals]]|e];
      try discriminate.
    injection Hs as <-. eauto.
  - assert (forall pre s post e,
              Forall (fun r => exists item,
                        region_value calculate n self r = Returns item) pre ->
              region_value calculate n self s = Raises e ->
              match batch (region_value calculate n self)
                      (pre ++ s :: post) with
              | Returns items => Returns (Some items)
              | Raises e0 => Raises e0
              end = Raises e) as Hfirst.
    { intros pre s post e Hpre Hfail.
      induction Hpre as [|r pre [item Hitem] Hpre IH]; simpl.
      - rewrite Hfail. reflexivity.
      - rewrite Hitem.
        destruct (batch _ (pre ++ s :: post)) as [bs|e']; congruence. }
    split.
    + intros pre s post Hsecs Hpre Hname. rewrite Hsecs.
      apply Hfirst; [assumption|].
      unfold region_value. rewrite Hname. reflexivity.
    + intros pre s post e Hsecs Hpre Hfail. rewrite Hsecs.
      apply Hfirst; assumption.
Qed.

End Batches.

(** ** One operation after another *)

Section Sequences.
Context {V E : Type}.
Variable calculate : RunningEntropy -> list byte -> E + list V.
Implicit Types self : FileObject V.
Implicit Types pf : ParsedFile V.

Lemma parsed_file_running_entropy_other_kind self pf w n :
  parsedfile self = Some pf -> pf_type pf <> "pefile" ->
  parsed_file_running_entropy calculate w n self = (Returns None, self).
Proof.
  intros Hpf Hty. unfold parsed_file_running_entropy, bind, get.
  simpl. rewrite Hpf. case_decide; [congruence | reflexivity].
Qed.

Lemma parsed_file_entropy_other_kind self pf n :
  parsedfile self = Some pf -> pf_type pf <> "pefile" ->
  parsed_file_entropy calculate n self = (Returns None, self).
Proof.
  intros Hpf Hty. unfold parsed_file_entropy, bind, get.
  simpl. rewrite Hpf. case_decide; [congruence | reflexivity].
Qed.

Lemma parsed_file_running_entropy_none self w n :
  parsedfile self = None ->
  parsed_file_running_entropy calculate w n self = (Returns None, self).
Proof.
  intros Hpf. unfold parsed_file_running_entropy, bind, get.
  simpl. rewrite Hpf. reflexivity.
Qed.

Lemma parsed_file_entropy_none self n :
  parsedfile self = None ->
  parsed_file_entropy calculate n self = (Returns None, self).
Proof.
  intros Hpf. unfold parsed_file_entropy, bind, get.
  simpl. rewrite Hpf. reflexivity.
Qed.

(** What the region operations return or raise is decided by the buffer,
    its recorded size and the kind and sections of the parsed file. *)
Lemma region_operations_outcome self self' w n :
  data self' = data self -> file_size self' = file_size self ->
  layout self' = layout self ->
  fst (parsed_file_running_entropy calculate w n self')
  = fst (parsed_file_running_entropy calculate w n self)
  /\ fst (parsed_file_entropy calculate n self')
     = fst (parsed_file_entropy calculate n self).
Proof.
  intros Hd Hs Hl. unfold layout in Hl.
  destruct (parsedfile self') as [pf'|] eqn:Hpf';
    destruct (parsedfile self) as [pf|] eqn:Hpf; simpl in Hl;
    try discriminate.
  - injection Hl as Hty Hfile.
    destruct (decide (pf_type pf = "pefile")) as [Hpe|Hpe].
    + rewrite (parsed_file_running_entropy_is_batch calculate self' pf')
        by congruence.
      rewrite (parsed_file_running_entropy_is_batch calculate self pf)
        by congruence.
      rewrite (parsed_file_entropy_batch calculate self' pf') by congruence.
      rewrite (parsed_file_entropy_batch calculate self pf) by congruence.
      rewrite Hfile.
      rewrite (batch_ext (region_series calculate w n self')
                 (region_series calculate w n self))
        by (intros a; apply region_series_outcome; assumption).
      rewrite (batch_ext (region_value calculate n self')
                 (region_value calculate n self))
        by (intros a; apply region_value_outcome; assumption).
      auto.
    + rewrite (parsed_file_running_entropy_other_kind self' pf')
        by congruence.
      rewrite (parsed_file_running_entropy_other_kind self pf) by congruence.
      rewrite (parsed_file_entropy_other_kind self' pf') by congruence.
      rewrite (parsed_file_entropy_other_kind self pf) by congruence.
      auto.
  - rewrite !parsed_file_running_entropy_none, !parsed_file_entropy_none
      by assumption.
    auto.
Qed.

(** X7. What a region operation returns or raises does not depend on
    what ran before it on the session: after a run of any of the four
    operations, [parsed_file_running_entropy] and [parsed_file_entropy] have
    the outcome they had before. A report is built anew by every call, so a
    second call returns the same items and not the items twice. *)
Theorem region_operations_are_repeatable self w n :
  (forall w0 n0,
     fst (parsed_file_running_entropy calculate w n
            (snd (parsed_file_running_entropy calculate w0 n0 self)))
     = fst (parsed_file_running_entropy calculate w n self)
     /\ fst (parsed_file_entropy calculate n
               (snd (parsed_file_running_entropy calculate w0 n0 self)))
        = fst (parsed_file_entropy calculate n self))
  /\ (forall n0,
        fst (parsed_file_running_entropy calculate w n
               (snd (parsed_file_entropy calculate n0 self)))
        = fst (parsed_file_running_entropy calculate w n self)
        /\ fst (parsed_file_entropy calculate n
                  (snd (parsed_file_entropy calculate n0 self)))
           = fst (parsed_file_entropy calculate n self))
  /\ (forall w0 n0 off len,
        fst (parsed_file_running_entropy calculate w n
               (snd (running_entropy calculate w0 n0 off len self)))
        = fst (parsed_file_running_entropy calculate w n self)
        /\ fst (parsed_file_entropy calculate n
                  (snd (running_entropy calculate w0 n0 off len self)))
           = fst (parsed_file_entropy calculate n self))
  /\ (forall n0,
        fst (parsed_file_running_entropy calculate w n
               (snd (entropy calculate n0 self)))
        = fst (parsed_file_running_entropy calculate w n self)
        /\ fst (parsed_file_entropy calculate n
                  (snd (entropy calculate n0 self)))
           = fst (parsed_file_entropy calculate n self)).
Proof.
  assert (forall self',
            identity self' = identity self -> layout self' = layout self ->
            fst (parsed_file_running_entropy calculate w n self')
            = fst (parsed_file_running_entropy calculate w n self)
            /\ fst (parsed_file_entropy calculate n self')
               = fst (parsed_file_entropy calculate n self)) as Hsame.
  { intros self' [= Hd Hs _ _] Hl.
    apply region_operations_outcome; assumption. }
  split; [|split; [|split]].
  - intros w0 n0. apply Hsame.
    + apply parsed_file_running_entropy_identity.
    + apply parsed_file_running_entropy_writes.
  - intros n0. apply Hsame.
    + apply parsed_file_entropy_identity.
    + apply parsed_file_entropy_writes.
  - intros w0 n0 off len. apply Hsame.
    + apply running_entropy_identity.
    + unfold layout.
      rewrite (proj1 (proj2 (running_entropy_writes calculate self w0 n0
                                off len))).
      reflexivity.
  - intros n0. apply Hsame.
    + apply entropy_identity.
    + unfold layout.
      rewrite (proj1 (proj2 (entropy_writes calculate self n0))).
      reflexivity.
Qed.

(** A call that returns records the same on every session with the same
    buffer. *)
Lemma running_entropy_record self self' w n off len vals :
  data self' = data self -> file_size self' = file_size self ->
  fst (running_entropy calculate w n off len self') = Returns vals ->
  introspection (snd (running_entropy calculate w n off len self'))
  = introspection (snd (running_entropy calculate w n off len self)).
Proof.
  intros Hd Hs.
  destruct (running_entropy_cases calculate self w n off len)
    as [(H1 & ->) | [(H1 & H2 & ->) | (H1 & H2 & ->)]];
  destruct (running_entropy_cases calculate self' w n off len)
    as [(H1' & ->) | [(H1' & H2' & ->) | (H1' & H2' & ->)]];
  rewrite ?Hd, ?Hs in *; try lia; try discriminate.
  destruct (calculate _ _); [discriminate | reflexivity].
Qed.

Lemma append_series_introspection (item : section_series V) self :
  introspection (snd (append_series (E:=E) item self)) = introspection self.
Proof. reflexivity. Qed.

Lemma append_value_introspection (item : section_value V) self :
  introspection (snd (append_value (E:=E) item self)) = introspection self.
Proof. reflexivity. Qed.

Lemma parsed_file_running_entropy_record self pf w n init last items :
  parsedfile self = Some pf -> pf_type pf = "pefile" ->
  pf_file pf = init ++ [last] ->
  fst (parsed_file_running_entropy calculate w n self)
  = Returns (Some items) ->
  introspection (snd (parsed_file_running_entropy calculate w n self))
  = introspection
      (snd (running_entropy calculate w n (PointerToRawData last)
              (Some (SizeOfRawData last)) self)).
Proof.
  intros Hpf Hty Hsecs Hret.
  rewrite (parsed_file_running_entropy_pefile calculate w n self pf Hpf Hty)
    in Hret |- *.
  set (self0 := set_parsedfile _ self) in *.
  rewrite Hsecs, for_each_app in Hret |- *.
  pose proof (for_each_invariant (fun s0 => identity s0 = identity self)
                (section_running_entropy calculate w n) init self0) as Hinv.
  destruct (for_each init _ self0) as [[[]|e] s1]; [|discriminate].
  assert (identity s1 = identity self) as [= Hd Hs _ _].
  { apply Hinv; [|reflexivity].
    intros a s0 Hs0. rewrite section_running_entropy_identity. exact Hs0. }
  rewrite for_each_cons, section_running_entropy_cases in Hret |- *.
  destruct (Py.decode_utf8 (Name last)) as [decoded|]; [|discriminate].
  pose proof (running_entropy_record self s1 w n (PointerToRawData last)
                (Some (SizeOfRawData last))) as Hrec.
  destruct (running_entropy calculate w n _ _ s1) as [[series|e] s1'];
    [|discriminate].
  simpl in *. apply (Hrec series); auto.
Qed.

Lemma parsed_file_entropy_record self pf n init last items :
  parsedfile self = Some pf -> pf_type pf = "pefile" ->
  pf_file pf = init ++ [last] ->
  fst (parsed_file_entropy calculate n self) = Returns (Some items) ->
  introspection (snd (parsed_file_entropy calculate n self))
  = introspection
      (snd (running_entropy calculate (SizeOfRawData last) n
              (PointerToRawData last) (Some (SizeOfRawData last)) self)).
Proof.
  intros Hpf Hty Hsecs Hret.
  rewrite (parsed_file_entropy_pefile calculate self pf n Hpf Hty)
    in Hret |- *.
  set (self0 := set_parsedfile _ self) in *.
  rewrite Hsecs, for_each_app in Hret |- *.
  pose proof (for_each_invariant (fun s0 => identity s0 = identity self)
                (section_entropy calculate n) init self0) as Hinv.
  destruct (for_each init _ self0) as [[[]|e] s1]; [|discriminate].
  assert (identity s1 = identity self) as [= Hd Hs _ _].
  { apply Hinv; [|reflexivity].
    intros a s0 Hs0. rewrite section_entropy_identity. exact Hs0. }
  rewrite for_each_cons, section_entropy_cases in Hret |- *.
  destruct (Py.decode_utf8 (Name last)) as [decoded|]; [|discriminate].
  pose proof (running_entropy_record self s1 (SizeOfRawData last) n
                (PointerToRawData last) (Some (SizeOfRawData last))) as Hrec.
  destruct (running_entropy calculate _ n _ _ s1) as [[entval|e] s1'];
    [|discriminate].
  specialize (Hrec entval Hd Hs eq_refl). simpl in Hrec.
  destruct entval as [|v [|v' entval]]; try discriminate. simpl in *.
  exact Hrec.
Qed.

(** X8. A region operation runs [running_entropy] once for each section,
    and the session's record of the last run (offset, length, window size
    and series) is overwritten each time: after a batch over sections that
    returns, the record is the one the direct call for the last section
    leaves, with the window of [parsed_file_entropy] being that section's
    length. Over no sections the record is as it was. *)
Theorem region_operations_record_last_region self pf w n :
  parsedfile self = Some pf -> pf_type pf = "pefile" ->
  (forall init last items,
     pf_file pf = init ++ [last] ->
     fst (parsed_file_running_entropy calculate w n self)
     = Returns (Some items) ->
     introspection (snd (parsed_file_running_entropy calculate w n self))
     = introspection
         (snd (running_entropy calculate w n (PointerToRawData last)
                 (Some (SizeOfRawData last)) self)))
  /\ (forall init last items,
        pf_file pf = init ++ [last] ->
        fst (parsed_file_entropy calculate n self) = Returns (Some items) ->
        introspection (snd (parsed_file_entropy calculate n self))
        = introspection
            (snd (running_entropy calculate (SizeOfRawData last) n
                    (PointerToRawData last) (Some (SizeOfRawData last))
                    self)))
  /\ (pf_file pf = [] ->
      introspection (snd (parsed_file_running_entropy calculate w n self))
      = introspection self
      /\ introspection (snd (parsed_file_entropy calculate n self))
         = introspection self).
Proof.
  intros Hpf Hty. split; [|split].
  - intros init last items.
    apply parsed_file_running_entropy_record; assumption.
  - intros init last items.
    apply parsed_file_entropy_record; assumption.
  - intros Hnil.
    rewrite (parsed_file_running_entropy_pefile calculate w n self pf Hpf Hty).
    rewrite (parsed_file_entropy_pefile calculate self pf n Hpf Hty).
    rewrite Hnil. split; reflexivity.
Qed.

End Sequences.

(** ** What construction does *)

Section Building.
Context {V E : Type}.
Variable calculate : RunningEntropy -> list byte -> E + list V.
Variable magic_label : string -> list byte -> string.
Variable md5_hexdigest : list byte -> string.
Variable sha256_hexdigest : list byte -> string.
Variable pe_sections : string -> list byte -> option (list PESection).
Implicit Types self : FileObject V.

Lemma read_loop_log rest st :
  read_log (read_loop rest st)
  = read_log st
    ++ flat_map (fun b => [read_1 (Some b); md5_update b; sha256_update b])
         rest
    ++ [read_1 None].
Proof.
  revert st. induction rest as [|b rest IH]; intros st; simpl.
  - reflexivity.
  - rewrite IH. simpl. rewrite <- app_assoc. reflexivity.
Qed.

Lemma init_log fs name content :
  fs !! name = Some content ->
  snd (__init__ (V:=V) (E:=E) magic_label md5_hexdigest sha256_hexdigest
         pe_sections fs name)
  = [os_path_exists name; magic_from_file name]
    ++ read_events name content
    ++ (if Py.re_match_PE_MS_Windows (magic_label name content)
        then [pefile_PE name] else []).
Proof.
  intros Hname. unfold __init__. rewrite Hname.
  unfold _read_file, _parse_file_type, read_events. simpl.
  rewrite read_loop_log. simpl.
  destruct (Py.re_match_PE_MS_Windows _);
    [destruct (pe_sections name content)|]; reflexivity.
Qed.

Lemma read_events_bytes name content :
  omap (fun ev => match ev with read_1 b => b | _ => None end)
    (read_events name content) = content
  /\ omap (fun ev => match ev with md5_update b => Some b | _ => None end)
       (read_events name content) = content
  /\ omap (fun ev => match ev with sha256_update b => Some b | _ => None end)
       (read_events name content) = content.
Proof.
  unfold read_events. simpl.
  induction content as [|b content (IH1 & IH2 & IH3)]; simpl.
  - auto.
  - rewrite IH1, IH2, IH3. auto.
Qed.

(** X9. Construction goes over the file once. For a file that exists
    the things done are, in this order: the existence test, the type label,
    the opening of the file, then for every byte of the file one read of it
    and one update of each hash object with it, the read that finds the end
    of the file, and the parser when the label asks for it. So the bytes
    read, the bytes the MD5 object is fed and the bytes the SHA-256 object
    is fed are, each, the file's bytes in order, once. *)
Theorem construction_reads_the_file_once fs name content :
  fs !! name = Some content ->
  let log := snd (__init__ (V:=V) (E:=E) magic_label md5_hexdigest
                    sha256_hexdigest pe_sections fs name) in
  log = [os_path_exists name; magic_from_file name]
        ++ read_events name content
        ++ (if Py.re_match_PE_MS_Windows (magic_label name content)
            then [pefile_PE name] else [])
  /\ omap (fun ev => match ev with read_1 b => b | _ => None end) log
     = content
  /\ omap (fun ev => match ev with md5_update b => Some b | _ => None end) log
     = content
  /\ omap (fun ev => match ev with sha256_update b => Some b | _ => None end)
       log
     = content.
Proof.
  intros Hname log. subst log. rewrite (init_log fs name content Hname).
  split; [reflexivity|].
  destruct (read_events_bytes name content) as (H1 & H2 & H3).
  rewrite !omap_app, H1, H2, H3. simpl.
  destruct (Py.re_match_PE_MS_Windows _); simpl; rewrite !app_nil_r; auto.
Qed.

Lemma init_parsedfile fs name self log :
  __init__ (E:=E) magic_label md5_hexdigest sha256_hexdigest pe_sections
    fs name = (Returns self, log) ->
  exists content,
    fs !! name = Some content
    /\ labels self = (name, magic_label name content)
    /\ introspection self = (None, None, 0, None)
    /\ file_entropy self = None
    /\ (if Py.re_match_PE_MS_Windows (magic_label name content)
        then exists sections,
               pe_sections name content = Some sections
               /\ parsedfile self
                  = Some {| pf_type := "pefile"; pf_file := sections;
                            pf_running_entropy := None; pf_entropy := None |}
        else parsedfile self = None).
Proof.
  unfold __init__. destruct (fs !! name) as [content|]; [|discriminate].
  intros Hinit. exists content. split; [reflexivity|].
  unfold _read_file, _parse_file_type in Hinit. simpl in Hinit.
  destruct (Py.re_match_PE_MS_Windows _);
    [destruct (pe_sections name content) as [sections|]|];
    inversion Hinit; subst; simpl; repeat split; eauto.
Qed.

(** X10. On the session that construction returns, the region
    operations are unavailable exactly when the type label does not match
    [PE.*MS Windows.*]: then the parser was not called, [parsedfile] is
    [None] and both operations return [None]. When the label matches,
    [parsedfile] is of kind ['pefile'] with the sections the parser found
    and no report yet, and neither operation returns [None]: it returns a
    report or raises. The session starts with no recorded run and no
    [file_entropy]. *)
Theorem construction_decides_region_analysis fs name self log :
  __init__ (E:=E) magic_label md5_hexdigest sha256_hexdigest pe_sections
    fs name = (Returns self, log) ->
  exists content,
    fs !! name = Some content
    /\ filetype self = magic_label name content
    /\ introspection self = (None, None, 0, None)
    /\ file_entropy self = None
    /\ (Py.re_match_PE_MS_Windows (filetype self) = false ->
        parsedfile self = None
        /\ ~ In (pefile_PE name) log
        /\ (forall w n,
              fst (parsed_file_running_entropy calculate w n self)
              = Returns None
              /\ fst (parsed_file_entropy calculate n self) = Returns None))
    /\ (Py.re_match_PE_MS_Windows (filetype self) = true ->
        (exists sections,
           pe_sections name content = Some sections
           /\ parsedfile self
              = Some {| pf_type := "pefile"; pf_file := sections;
                        pf_running_entropy := None; pf_entropy := None |})
        /\ (forall w n,
              fst (parsed_file_running_entropy calculate w n self)
              <> Returns None
              /\ fst (parsed_file_entropy calculate n self) <> Returns None)).
Proof.
  intros Hinit.
  pose proof (f_equal snd Hinit) as Hlog. simpl in Hlog.
  destruct (init_parsedfile fs name self log Hinit)
    as (content & Hname & [= Hfn Hft] & Hintro & Hfe & Hpf).
  rewrite (init_log fs name content Hname) in Hlog.
  exists content. rewrite Hft.
  split; [assumption|]. split; [reflexivity|].
  split; [assumption|]. split; [assumption|].
  split; intros Hre; rewrite Hre in Hpf, Hlog.
  - split; [assumption|]. split.
    + rewrite <- Hlog. unfold read_events. rewrite app_nil_r.
      intros [H|[H|[H|H]]]; try discriminate.
      apply in_app_or in H as [H|[H|[]]]; [|discriminate].
      apply in_flat_map in H as (b & _ & [H|[H|[H|[]]]]); discriminate.
    + intros w n.
      rewrite (parsed_file_running_entropy_none calculate self w n Hpf).
      rewrite (parsed_file_entropy_none calculate self n Hpf). auto.
  - split; [exact Hpf|]. destruct Hpf as (sections & _ & Hpf).
    intros w n.
    rewrite (parsed_file_running_entropy_is_batch calculate self _ w n Hpf
               eq_refl).
    rewrite (parsed_file_entropy_batch calculate self _ n Hpf eq_refl).
    split; destruct (batch _ _); discriminate.
Qed.

End Building.

(** ** Type labels and section names *)

Section Texts.

Lemma append_String c (s t : string) :
  String.append (String c s) t = String c (String.append s t).
Proof. reflexivity. Qed.

Lemma append_Empty (t : string) : String.append EmptyString t = t.
Proof. reflexivity. Qed.

Lemma prefix_append (p s : string) :
  String.prefix p s = true <-> exists rest, s = String.append p rest.
Proof.
  revert s. induction p as [|a p IH]; intros s.
  - split; [intros _; exists s; reflexivity
           | intros _; destruct s; reflexivity].
  - destruct s as [|b s]; simpl.
    + split; [discriminate | intros [rest Hrest]; discriminate].
    + destruct (ascii_dec a b) as [->|Hab].
      * rewrite IH.
        split; intros [rest Hrest]; exists rest;
          rewrite append_String in *; congruence.
      * split; [discriminate|].
        intros [rest Hrest]. rewrite append_String in Hrest. congruence.
Qed.

Lemma dot_star_then_spec (pat s : string) :
  Py.dot_star_then pat s = true <->
  exists mid rest,
    s = String.append mid (String.append pat rest)
    /\ forall c, In c (list_ascii_of_string mid) -> c <> "010"%char.
Proof.
  induction s as [|c s IH]; cbn [Py.dot_star_then].
  - rewrite orb_false_r, prefix_append. split.
    + intros [rest Hrest]. exists EmptyString, rest.
      rewrite append_Empty. simpl. auto.
    + intros (mid & rest & Hs & _).
      destruct mid; [|discriminate]. rewrite append_Empty in Hs. eauto.
  - rewrite orb_true_iff, prefix_append. split.
    + intros [[rest Hrest]|Hgo].
      * exists EmptyString, rest. rewrite append_Empty. simpl. auto.
      * destruct (Ascii.eqb c "010") eqn:Hc; [discriminate|].
        apply IH in Hgo as (mid & rest & -> & Hmid).
        exists (String c mid), rest. split; [reflexivity|].
        simpl. intros c' [<-|Hin]; [|auto].
        intros ->. discriminate.
    + intros (mid & rest & Hs & Hmid).
      destruct mid as [|c' mid].
      * left. rewrite append_Empty in Hs. eauto.
      * right. rewrite append_String in Hs. injection Hs as <- ->.
        destruct (Ascii.eqb c "010") eqn:Hc.
        -- apply Ascii.eqb_eq in Hc. exfalso.
           apply (Hmid c); [simpl; auto | exact Hc].
        -- apply IH. exists mid, rest. split; [reflexivity|].
           intros c' Hin. apply Hmid. simpl. auto.
Qed.

(** X11. The test of [_parse_file_type], [re.match("PE.*MS Windows.*",
    label)], holds exactly of the labels that start with [PE] and, after
    any run of characters that holds no newline, go on with [MS Windows];
    what follows does not matter. *)
Theorem type_label_of_a_PE_file (label : string) :
  Py.re_match_PE_MS_Windows label = true <->
  exists mid rest,
    label = String.append "PE"
              (String.append mid (String.append "MS Windows" rest))
    /\ forall c, In c (list_ascii_of_string mid) -> c <> "010"%char.
Proof.
  split.
  - destruct label as [|c1 [|c2 s]]; try discriminate.
    + destruct c1 as [[] [] [] [] [] [] [] []]; discriminate.
    + destruct c1 as [[] [] [] [] [] [] [] []]; try discriminate.
      destruct c2 as [[] [] [] [] [] [] [] []]; try discriminate.
      intros Hm. apply dot_star_then_spec in Hm as (mid & rest & -> & Hmid).
      exists mid, rest. auto.
  - intros (mid & rest & -> & Hmid). rewrite !append_String, append_Empty.
    apply dot_star_then_spec. eauto.
Qed.

Lemma lstrip_nul_spec (l : list ascii) :
  exists k : nat,
    l = repeat Ascii.zero k ++ Py.lstrip_nul l
    /\ head (Py.lstrip_nul l) <> Some Ascii.zero.
Proof.
  induction l as [|c l (k & Hl & Hhead)]; simpl.
  - exists 0%nat. split; [reflexivity | discriminate].
  - destruct (Ascii.eqb c Ascii.zero) eqn:Hc.
    + apply Ascii.eqb_eq in Hc as ->. exists (S k). simpl.
      split; [congruence | assumption].
    + exists 0%nat. split; [reflexivity|]. simpl. intros [= ->].
      rewrite Ascii.eqb_refl in Hc. discriminate.
Qed.

Lemma rstrip_nul_spec (s : string) :
  exists k : nat,
    list_ascii_of_string s
    = list_ascii_of_string (Py.rstrip_nul s) ++ repeat Ascii.zero k
    /\ last (list_ascii_of_string (Py.rstrip_nul s)) <> Some Ascii.zero.
Proof.
  unfold Py.rstrip_nul. rewrite list_ascii_of_string_of_list_ascii.
  destruct (lstrip_nul_spec (rev (list_ascii_of_string s)))
    as (k & Hl & Hhead).
  exists k. split.
  - rewrite <- (rev_involutive (list_ascii_of_string s)), Hl at 1.
    rewrite rev_app_distr. f_equal.
    clear. induction k as [|k IH]; simpl; [reflexivity|].
    rewrite IH. clear. induction k; simpl; congruence.
  - destruct (list_ascii_of_string s) as [|c l]; simpl in *.
    + discriminate.
    + revert Hhead. generalize (Py.lstrip_nul (rev l ++ [c])).
      intros [|c' l']; simpl; [discriminate|].
      rewrite last_snoc. auto.
Qed.

Lemma last_app_repeat {A} (x : A) (l : list A) (k : nat) :
  last (l ++ repeat x (S k)) = Some x.
Proof.
  replace (repeat x (S k)) with (repeat x k ++ [x]).
  - rewrite app_assoc. apply last_snoc.
  - clear. induction k; simpl in *; congruence.
Qed.

Lemma decode_utf8_text (b : list byte) (text : string) :
  Py.decode_utf8 b = Some text ->
  Py.utf8_well_formed b = true /\ text = string_of_list_byte b.
Proof.
  unfold Py.decode_utf8. destruct (Py.utf8_well_formed b); [|discriminate].
  intros [= <-]. auto.
Qed.

(** X12. The name an item of either report carries is the section's
    name, decoded, without its trailing NULs: the section's name is
    well-formed UTF-8, its text is the reported name followed by NULs only,
    the reported name does not end in a NUL, and a name that does not end
    in a NUL is reported as it is. *)
Theorem reported_section_name {V E}
    (calculate : RunningEntropy -> list byte -> E + list V)
    (self : FileObject V) (w : Z) (n : bool) (s : PESection) :
  forall shown,
    (exists item,
       region_series calculate w n self s = Returns item
       /\ ss_name item = shown)
    \/ (exists item,
          region_value calculate n self s = Returns item
          /\ sv_name item = shown) ->
    Py.utf8_well_formed (Name s) = true
    /\ (exists k : nat,
          list_ascii_of_string (string_of_list_byte (Name s))
          = list_ascii_of_string shown ++ repeat Ascii.zero k)
    /\ last (list_ascii_of_string shown) <> Some Ascii.zero
    /\ (last (list_ascii_of_string (string_of_list_byte (Name s)))
        <> Some Ascii.zero ->
        shown = string_of_list_byte (Name s)).
Proof.
  intros shown Hitem.
  assert (Py.utf8_well_formed (Name s) = true
          /\ shown = Py.rstrip_nul (string_of_list_byte (Name s)))
    as [Hwf ->].
  { destruct Hitem as [(item & Hr & <-)|(item & Hr & <-)].
    - unfold region_series in Hr.
      destruct (Py.decode_utf8 (Name s)) as [decoded|] eqn:Hdec;
        [|discriminate].
      apply decode_utf8_text in Hdec as [Hwf ->].
      destruct (fst (running_entropy _ _ _ _ _ _)); [|discriminate].
      injection Hr as <-. auto.
    - unfold region_value in Hr.
      destruct (Py.decode_utf8 (Name s)) as [decoded|] eqn:Hdec;
        [|discriminate].
      apply decode_utf8_text in Hdec as [Hwf ->].
      destruct (fst (running_entropy _ _ _ _ _ _)) as [[|v [|v' vals]]|e];
        try discriminate.
      injection Hr as <-. auto. }
  split; [exact Hwf|].
  destruct (rstrip_nul_spec (string_of_list_byte (Name s)))
    as (k & Hk & Hlast).
  split; [eauto|]. split; [assumption|].
  intros Hraw. destruct k as [|k].
  - simpl in Hk. rewrite app_nil_r in Hk.
    apply (f_equal string_of_list_ascii) in Hk.
    rewrite !string_of_list_ascii_of_string in Hk. congruence.
  - exfalso. apply Hraw. rewrite Hk. apply last_app_repeat.
Qed.

End Texts.

(** ** The bytes a request reaches *)

Section Spans.
Context {V E : Type}.
Variable calculate : RunningEntropy -> list byte -> E + list V.
Implicit Types self : FileObject V.

(** The slice a request that passed both checks takes, by the sign of the
    length. *)
Lemma slice_of_request {A} (l : list A) (off L : Z) :
  0 <= off -> L + off <= Z.of_nat (length l) ->
  exists k : nat,
    Py.slice l off (L + off) = take k (drop (Z.to_nat off) l)
    /\ (0 <= L -> Z.of_nat k = L)
    /\ (L < 0 -> 0 <= off + L -> k = 0%nat)
    /\ (off + L < 0 -> Z.of_nat k = Z.max 0 (Z.of_nat (length l) + L)).
Proof.
  intros Hoff Hfit.
  destruct (decide (0 <= L)) as [HL|HL].
  - exists (Z.to_nat L). rewrite slice_inside by lia.
    repeat split; lia.
  - destruct (decide (0 <= off + L)) as [Hstop|Hstop].
    + exists 0%nat. split; [|repeat split; lia].
      unfold Py.slice, Py.slice_index. repeat case_decide; try lia.
      replace (Z.to_nat _) with 0%nat by lia. reflexivity.
    + exists (Z.to_nat (Z.max 0 (Z.of_nat (length l) + L))).
      split; [|repeat split; lia].
      unfold Py.slice, Py.slice_index. repeat case_decide; try lia.
      destruct (decide (off <= Z.of_nat (length l))) as [Hin|Hout].
      * rewrite Z.min_l by lia. f_equal. lia.
      * rewrite Z.min_r by lia.
        replace (Z.to_nat (Z.max 0 (L + off + Z.of_nat (length l))
                           - Z.of_nat (length l))) with 0%nat by lia.
        replace (Z.to_nat (Z.max 0 (Z.of_nat (length l) + L))) with 0%nat
          by lia.
        reflexivity.
Qed.

(** X15. The bytes [running_entropy] hands the engine are always a run
    of the buffer that starts at [offset]: for a request that passes both
    checks on a session, they are [data[offset:offset+k]] for some [k], with
    [k = length] for a length that is not negative (the default length
    included). A negative length passes the checks too, and then Python's
    slice bounds decide: nothing is handed over when [offset + length] is
    not negative, and otherwise the stop counts from the end of the buffer,
    which gives [max(0, file_size + length)] bytes. *)
Theorem running_entropy_span self w n off len :
  session self ->
  0 <= off <= file_size self - w ->
  (forall l, len = Some l -> l + off <= file_size self) ->
  let L := default (file_size self - off) len in
  exists k : nat,
    fst (running_entropy calculate w n off len self)
    = fst (engine (V:=V)
             (calculate {| window := w; normalize := n |}
                (take k (drop (Z.to_nat off) (data self)))) self)
    /\ (0 <= L -> Z.of_nat k = L)
    /\ (L < 0 -> 0 <= off + L -> k = 0%nat)
    /\ (off + L < 0 -> Z.of_nat k = Z.max 0 (file_size self + L)).
Proof.
  intros Hs Hoff Hlen L.
  assert (L + off <= file_size self) as HL.
  { subst L. destruct len as [l|]; simpl; [auto | lia]. }
  destruct (running_entropy_cases calculate self w n off len)
    as [(Hbad & _) | [(_ & Hbad & _) | (_ & _ & Hc)]]; [lia | fold L in Hbad; lia |].
  fold L in Hc. rewrite Hc. clear Hc. rewrite Hs in HL |- *.
  destruct (slice_of_request (data self) off L ltac:(lia) HL)
    as (k & -> & Hk).
  exists k. split; [|exact Hk].
  unfold engine, ret, raise.
  destruct (calculate _ (take k _)); reflexivity.
Qed.

(** X13. For the aggregate of a region the window is the region's
    length, and the two range checks become one: the call
    [running_entropy(length, normalize, offset, length)] passes them exactly
    when [0 <= offset] and [offset + length <= file_size]; otherwise it ends
    in the offset's [IndexError] and leaves the session; the length's
    [IndexError] is never raised. *)
Theorem aggregate_region_checks self l n off :
  (0 <= off /\ off + l <= file_size self ->
   running_entropy calculate l n off (Some l) self
   = match calculate {| window := l; normalize := n |}
             (Py.slice (data self) off (l + off)) with
     | inr vals =>
         (Returns vals,
          set_running_entropy_data (Some vals) (recorded off l l self))
     | inl e => (Raises (EngineError e), recorded off l l self)
     end)
  /\ (~ (0 <= off /\ off + l <= file_size self) ->
      running_entropy calculate l n off (Some l) self
      = (Raises (IndexError (offset_not_valid off (file_size self) l)), self))
  /\ (forall a b c,
        fst (running_entropy calculate l n off (Some l) self)
        <> Raises (IndexError (length_not_valid a b c))).
Proof.
  split; [|split].
  - intros [H0 Hfit]. apply running_entropy_checked; lia.
  - intros Hout. apply running_entropy_bad_offset. lia.
  - intros a b c.
    destruct (running_entropy_cases calculate self l n off (Some l))
      as [(_ & ->) | [(H1 & H2 & _) | (_ & _ & ->)]];
      [discriminate | simpl in H2; lia |].
    destruct (calculate _ _); discriminate.
Qed.

(** X14. With a window of its own, a region that lies inside the file
    is turned down by the range checks exactly when fewer than
    [window_size] bytes are left from its offset to the end of the file:
    the region's own length plays no part. So a region shorter than the
    window is taken when it lies far enough from the end of the file, and a
    region that ends with the file is turned down when it is shorter than
    the window. This holds of the direct call for the region's bounds, and
    of the region in its batch whenever its name decodes. *)
Theorem window_is_checked_against_the_file self w n s :
  0 <= PointerToRawData s -> 0 <= SizeOfRawData s ->
  PointerToRawData s + SizeOfRawData s <= file_size self ->
  ((exists m,
      fst (running_entropy calculate w n (PointerToRawData s)
             (Some (SizeOfRawData s)) self) = Raises (IndexError m))
   <-> file_size self - w < PointerToRawData s)
  /\ (file_size self - w < PointerToRawData s ->
      fst (running_entropy calculate w n (PointerToRawData s)
             (Some (SizeOfRawData s)) self)
      = Raises (IndexError
                  (offset_not_valid (PointerToRawData s) (file_size self) w)))
  /\ (forall decoded,
        Py.decode_utf8 (Name s) = Some decoded ->
        ((exists m, region_series calculate w n self s = Raises (IndexError m))
         <-> file_size self - w < PointerToRawData s)
        /\ (file_size self - w < PointerToRawData s ->
            region_series calculate w n self s
            = Raises (IndexError
                        (offset_not_valid (PointerToRawData s)
                           (file_size self) w)))).
Proof.
  intros H0 Hl Hfit.
  assert (((exists m,
      fst (running_entropy calculate w n (PointerToRawData s)
             (Some (SizeOfRawData s)) self) = Raises (IndexError m))
   <-> file_size self - w < PointerToRawData s)
  /\ (file_size self - w < PointerToRawData s ->
      fst (running_entropy calculate w n (PointerToRawData s)
             (Some (SizeOfRawData s)) self)
      = Raises (IndexError
                  (offset_not_valid (PointerToRawData s) (file_size self) w))))
    as [Hiff Hbad].
  { destruct (running_entropy_cases calculate self w n (PointerToRawData s)
                (Some (SizeOfRawData s)))
      as [(H1 & ->) | [(H1 & H2 & _) | (H1 & _ & ->)]];
      [| simpl in H2; lia |]; simpl.
    - split; [split; [lia | eauto] | reflexivity].
    - split; [|lia]. split; [|lia].
      intros [m Hm]. destruct (calculate _ _); discriminate. }
  split; [exact Hiff|]. split; [exact Hbad|].
  intros decoded Hdec. unfold region_series. rewrite Hdec. split.
  - rewrite <- Hiff.
    destruct (fst (running_entropy _ _ _ _ _ _)) as [series|e].
    + split; intros [m Hm]; discriminate.
    + split; intros [m Hm]; exists m; congruence.
  - intros Hlate. rewrite (Hbad Hlate). reflexivity.
Qed.

End Spans.


(** ** The properties on the sample sessions *)

Import Samples.

(** The sample session is the one construction builds. *)
Lemma plain_is_constructed :
  fst (__init__ (E:=engine_error) label (digest "md5:") (digest "sha256:")
         no_sections disk "sample.bin")
  = Returns plain.
Proof. vm_compute. reflexivity. Qed.

(** C2 on the ten bytes with a window of 4: offset 7 is refused, and the
    call at offset 6, which returns, has its offset in range. *)
Lemma running_entropy_offset_range_witness :
  running_entropy calculate 4 true 7 None plain
  = (Raises (IndexError (offset_not_valid 7 10 4)), plain)
  /\ 0 <= 6 <= file_size plain - 4
  /\ running_entropy calculate 11 true 0 None plain
     = (Raises (IndexError (offset_not_valid 0 10 11)), plain).
Proof.
  split; [|split].
  - apply (proj1 (running_entropy_offset_range calculate plain 4 true 7 None)).
    simpl. lia.
  - apply (proj1 (proj2
             (running_entropy_offset_range calculate plain 4 true 6 None))
             (returned [] (fst (running_entropy calculate 4 true 6 None plain)))
             (snd (running_entropy calculate 4 true 6 None plain))).
    vm_compute. reflexivity.
  - apply (proj2 (proj2
             (running_entropy_offset_range calculate plain 11 true 0 None))).
    simpl. lia.
Defined.

(** C3 on the ten bytes with a window of 4: from offset 2 a length of 9
    is refused and a length of 8, which ends at the end of the file, is
    not. *)
Lemma running_entropy_length_check_witness :
  running_entropy calculate 4 true 2 (Some 9) plain
  = (Raises (IndexError (length_not_valid 9 10 2)), plain)
  /\ (exists vals,
        fst (running_entropy calculate 4 true 2 (Some 8) plain) = Returns vals
        /\ length vals = 2%nat)
  /\ Py.slice (data plain) 2 (file_size plain - 2 + 2)
     = drop 2 (data plain).
Proof.
  destruct (running_entropy_length_check calculate plain 4 true 2)
    as (Hover & Hfit & _ & Hend).
  split; [|split].
  - destruct (Hover 9 ltac:(simpl; lia)) as (m & Hr & Hm).
    rewrite Hr, Hm by (simpl; lia). reflexivity.
  - rewrite (Hfit 8) by (simpl; lia).
    eexists. split; reflexivity.
  - apply Hend; [reflexivity | simpl; lia].
Defined.

(** C10 on the ten bytes: the refused call at offset 7 leaves the session
    as it was. *)
Lemma running_entropy_invalid_range_writes_nothing_witness :
  snd (running_entropy calculate 4 true 7 None plain) = plain
  /\ introspection (snd (running_entropy calculate 4 true 7 None plain))
     = introspection plain.
Proof.
  apply (running_entropy_invalid_range_writes_nothing calculate plain 4 true 7
           None (offset_not_valid 7 10 4)).
  reflexivity.
Defined.

(** C4 on the ten bytes: the whole-file entropy is the one entry of the
    series whose window is the file. *)
Lemma entropy_is_whole_file_series_witness :
  fst (entropy calculate true plain) = Returns (shannon true ten_bytes)
  /\ fst (running_entropy calculate (file_size plain) true 0 None plain)
     = Returns [shannon true ten_bytes].
Proof.
  apply (proj2 (entropy_is_whole_file_series calculate plain true eq_refl)).
  reflexivity.
Defined.

(** C1 on the ten bytes with a window of 4: three entries,
    [ceil(10 / 4)], the last one over the two bytes that are left. *)
Lemma running_entropy_series_length_witness :
  exists vals,
    fst (running_entropy calculate 4 true 0 None plain) = Returns vals
    /\ Z.of_nat (length vals) = ceil_div 10 4
    /\ ceil_div 10 4 = 3
    /\ (exists v, vals !! 2%nat = Some v /\ Z.of_nat (ew_size v) = 2).
Proof.
  set (r := running_entropy calculate 4 true 0 None plain).
  exists (returned [] (fst r)).
  destruct (running_entropy_series_length plain 4 true 0 None
              (returned [] (fst r)) (snd r))
    as (_ & Hn & Hi).
  - reflexivity.
  - vm_compute. reflexivity.
  - discriminate.
  - split; [vm_compute; reflexivity|]. split; [exact Hn|].
    split; [reflexivity|].
    destruct (Hi 2%nat) as (v & Hv & _ & Hsize).
    + vm_compute. lia.
    + exists v. split; [exact Hv | exact Hsize].
Defined.

(** C5 on the ten bytes: the whole-file entropy is the score of the one
    slice, and the per-section path over three sections, the last of which
    runs past the end of the file, does not end in the bare [Exception]. *)
Lemma aggregate_paths_single_slice_witness :
  fst (entropy calculate true plain) = Returns (shannon true ten_bytes)
  /\ fst (parsed_file_entropy calculate true (parsed [text; rdata; rsrc]))
     <> Raises Exception
  /\ length (returned []
               (fst (running_entropy calculate 4 true 4 (Some 4) plain)))
     = 1%nat.
Proof.
  split; [|split].
  - apply (proj1 (aggregate_paths_single_slice plain true)). discriminate.
  - apply (proj1 (proj2 (proj2
             (aggregate_paths_single_slice (parsed [text; rdata; rsrc]) true)))).
  - apply (proj2 (proj2 (proj2 (aggregate_paths_single_slice plain true)))
             4 4 _ (snd (running_entropy calculate 4 true 4 (Some 4) plain))).
    vm_compute. reflexivity.
Defined.

(** C6 on the ten bytes, which no structured parser took: both region
    operations return [None], and the whole-file entropy is there after
    them. *)
Lemma region_analysis_unavailable_witness :
  parsed_file_running_entropy calculate 4 true plain = (Returns None, plain)
  /\ parsed_file_entropy calculate true plain = (Returns None, plain)
  /\ fst (entropy calculate true
            (snd (parsed_file_running_entropy calculate 4 true plain)))
     = Returns (shannon true ten_bytes).
Proof.
  destruct (region_analysis_unavailable calculate plain 4 true eq_refl)
    as (Hr & He & Hent & _).
  split; [exact Hr|]. split; [exact He|].
  rewrite (proj1 (Hent true)). vm_compute. reflexivity.
Defined.

(** C7 on the ten bytes with a window of 2: with a third section that
    runs past the end of the file the batch raises that section's
    [IndexError]; with a second section whose name is not UTF-8 it raises
    [UnicodeDecodeError]; over the two sections with sound names and
    bounds it returns the two items in order. *)
Lemma parsed_file_running_entropy_fail_fast_witness :
  fst (parsed_file_running_entropy calculate 2 true
         (parsed [text; rdata; rsrc]))
  = Raises (IndexError (length_not_valid 4 10 8))
  /\ fst (parsed_file_running_entropy calculate 2 true (parsed [text; upx]))
     = Raises UnicodeDecodeError
  /\ (exists a b,
        fst (parsed_file_running_entropy calculate 2 true
               (parsed [text; rdata])) = Returns (Some [a; b])
        /\ ss_name a = ".text" /\ ss_name b = ".data"
        /\ region_series calculate 2 true (parsed [text; rdata]) text
           = Returns a
        /\ region_series calculate 2 true (parsed [text; rdata]) rdata
           = Returns b).
Proof.
  split; [|split].
  - apply (proj1 (proj2 (proj2 (proj2
             (parsed_file_running_entropy_fail_fast calculate
                (parsed [text; rdata; rsrc]) _ 2 true eq_refl eq_refl))))
             [text; rdata] rsrc []
             (string_of_list_byte (Name rsrc))).
    + reflexivity.
    + repeat constructor; eexists; vm_compute; reflexivity.
    + vm_compute. reflexivity.
    + vm_compute. reflexivity.
  - apply (proj2 (proj2 (proj2 (proj2
             (parsed_file_running_entropy_fail_fast calculate
                (parsed [text; upx]) _ 2 true eq_refl eq_refl))))
             [text] upx []).
    + reflexivity.
    + repeat constructor; eexists; vm_compute; reflexivity.
    + vm_compute. reflexivity.
  - set (s := parsed [text; rdata]).
    exists (returned {| ss_name := ""; ss_offset := 0; ss_length := 0;
                        ss_entropy_window_length := 0; ss_normalize := true;
                        ss_running_entropy := [] |}
              (region_series calculate 2 true s text)),
           (returned {| ss_name := ""; ss_offset := 0; ss_length := 0;
                        ss_entropy_window_length := 0; ss_normalize := true;
                        ss_running_entropy := [] |}
              (region_series calculate 2 true s rdata)).
    split; [|repeat split; vm_compute; reflexivity].
    apply (proj1 (proj2 (proj2 (parsed_file_running_entropy_fail_fast calculate
                                  s _ 2 true eq_refl eq_refl)))).
    repeat constructor; vm_compute; reflexivity.
Defined.

(** C8 on the sample disk: a path that is not on it. *)
Lemma init_missing_file_not_found_witness :
  __init__ (V:=EntropyWindow) (E:=engine_error) label (digest "md5:")
    (digest "sha256:") no_sections disk "missing.bin"
  = (Raises (ValueError "missing.bin"), [os_path_exists "missing.bin"]).
Proof.
  apply (init_missing_file_not_found (V:=EntropyWindow) (E:=engine_error)
           label (digest "md5:") (digest "sha256:") no_sections disk
           "missing.bin").
  vm_compute. reflexivity.
Defined.

(** C9 on the sample disk: the constructed session holds the file's
    bytes, and a run of each operation leaves them and the identity. *)
Lemma buffer_and_identity_are_kept_witness :
  identity plain
  = (ten_bytes, 10, digest "md5:" ten_bytes, digest "sha256:" ten_bytes)
  /\ identity (snd (running_entropy calculate 4 true 0 None plain))
     = identity plain
  /\ identity (snd (parsed_file_entropy calculate true
                      (parsed [text; rdata; rsrc])))
     = identity plain.
Proof.
  destruct (buffer_and_identity_are_kept (V:=EntropyWindow) calculate label
              (digest "md5:") (digest "sha256:") no_sections)
    as (Hinit & Hrun & _ & _ & Hpfe).
  split; [|split].
  - destruct (Hinit disk "sample.bin" plain
                (snd (__init__ (V:=EntropyWindow) (E:=engine_error) label
                        (digest "md5:") (digest "sha256:") no_sections disk
                        "sample.bin")))
      as (content & Hc & Hid).
    + vm_compute. reflexivity.
    + reflexivity.
  - apply Hrun.
  - rewrite Hpfe. reflexivity.
Defined.

(** X1 on the ten bytes: the call for two bytes with a window of four
    passes both checks and is turned down by the engine, and the session has
    the request on record all the same. *)
Lemma running_entropy_records_request_witness :
  fst (running_entropy calculate 4 true 0 (Some 2) plain)
  = Raises (EngineError (InvalidWindow 4 2))
  /\ introspection (snd (running_entropy calculate 4 true 0 (Some 2) plain))
     = (Some 0, Some 2, 4, None).
Proof.
  destruct (running_entropy_records_request calculate plain 4 true 0 (Some 2))
    as (Ho & Hl & Hw & _ & Hraise).
  - simpl. lia.
  - intros l [= <-]. simpl. lia.
  - split; [reflexivity|].
    destruct (Hraise (EngineError (InvalidWindow 4 2)) eq_refl) as [Hd _].
    unfold introspection. rewrite Ho, Hl, Hw, Hd. reflexivity.
Defined.

(** X2 on the ten bytes with a window of 2: the batch that fails on its
    third section leaves the items of the first two in the session, and the
    batch that fails on the name of its second section leaves the item of
    the first. *)
Lemma parsed_file_running_entropy_keeps_partial_list_witness :
  (exists a b,
     parsedfile (snd (parsed_file_running_entropy calculate 2 true
                        (parsed [text; rdata; rsrc])))
       ≫= pf_running_entropy
     = Some [a; b]
     /\ ss_name a = ".text" /\ ss_name b = ".data")
  /\ (exists a,
        parsedfile (snd (parsed_file_running_entropy calculate 2 true
                           (parsed [text; upx])))
          ≫= pf_running_entropy
        = Some [a]
        /\ ss_name a = ".text").
Proof.
  set (d := {| ss_name := ""; ss_offset := 0; ss_length := 0;
               ss_entropy_window_length := 0; ss_normalize := true;
               ss_running_entropy := @nil EntropyWindow |}).
  split.
  - set (s := parsed [text; rdata; rsrc]).
    exists (returned d (region_series calculate 2 true s text)),
           (returned d (region_series calculate 2 true s rdata)).
    split; [|split; vm_compute; reflexivity].
    eapply (parsed_file_running_entropy_keeps_partial_list calculate s _ 2 true
             [text; rdata] rsrc [] (IndexError (length_not_valid 4 10 8))).
    + reflexivity.
    + reflexivity.
    + reflexivity.
    + repeat constructor; vm_compute; reflexivity.
    + vm_compute. reflexivity.
  - set (s := parsed [text; upx]).
    exists (returned d (region_series calculate 2 true s text)).
    split; [|vm_compute; reflexivity].
    eapply (parsed_file_running_entropy_keeps_partial_list calculate s _ 2 true
             [text] upx [] UnicodeDecodeError).
    + reflexivity.
    + reflexivity.
    + reflexivity.
    + repeat constructor; vm_compute; reflexivity.
    + vm_compute. reflexivity.
Defined.

(** X3 on the sample disk: the object built from [sample.bin] is a
    session, and so is what a run of [running_entropy] leaves. *)
Lemma session_is_kept_witness :
  session plain
  /\ session (snd (running_entropy calculate 4 true 0 None plain)).
Proof.
  destruct (session_is_kept (V:=EntropyWindow) calculate label
              (digest "md5:") (digest "sha256:") no_sections)
    as (Hinit & Hrun & _).
  assert (session plain) as Hs.
  { apply (Hinit disk "sample.bin" plain
             (snd (__init__ (V:=EntropyWindow) (E:=engine_error) label
                     (digest "md5:") (digest "sha256:") no_sections disk
                     "sample.bin"))).
    vm_compute. reflexivity. }
  split; [exact Hs | apply Hrun; exact Hs].
Defined.

(** X6 on the ten bytes: the aggregate of two sections of four bytes is
    two items, each the score of its four bytes, and a third section that
    runs past the end of the file ends the batch in the offset's
    [IndexError], and a second section whose name is not UTF-8 ends it in
    [UnicodeDecodeError]. *)
Lemma parsed_file_entropy_is_batch_witness :
  fst (parsed_file_entropy calculate true (parsed [text; rdata]))
  = Returns (Some [ {| sv_name := ".text"; sv_offset := 0; sv_length := 4;
                       sv_normalize := true;
                       sv_entropy := shannon true [x00; x01; x02; x03] |};
                    {| sv_name := ".data"; sv_offset := 4; sv_length := 4;
                       sv_normalize := true;
                       sv_entropy := shannon true [x04; x05; x06; x07] |} ])
  /\ fst (parsed_file_entropy calculate true (parsed [text; rdata; rsrc]))
     = Raises (IndexError (offset_not_valid 8 10 4))
  /\ fst (parsed_file_entropy calculate true (parsed [text; upx]))
     = Raises UnicodeDecodeError.
Proof.
  split; [|split].
  - rewrite (proj1 (parsed_file_entropy_is_batch calculate
                      (parsed [text; rdata]) _ true eq_refl eq_refl)).
    vm_compute. reflexivity.
  - apply (proj2 (proj2 (proj2 (parsed_file_entropy_is_batch calculate
                                  (parsed [text; rdata; rsrc]) _ true eq_refl
                                  eq_refl)))
             [text; rdata] rsrc []).
    + reflexivity.
    + repeat constructor; eexists; vm_compute; reflexivity.
    + vm_compute. reflexivity.
  - apply (proj1 (proj2 (proj2 (parsed_file_entropy_is_batch calculate
                                  (parsed [text; upx]) _ true eq_refl
                                  eq_refl)))
             [text] upx []).
    + reflexivity.
    + repeat constructor; eexists; vm_compute; reflexivity.
    + vm_compute. reflexivity.
Defined.

(** X8 on the ten bytes with a window of 2: after the batch over the two
    sections the session's record is that of the second one. *)
Lemma region_operations_record_last_region_witness :
  running_entropy_offset
    (snd (parsed_file_running_entropy calculate 2 true (parsed [text; rdata])))
  = Some 4
  /\ introspection
       (snd (parsed_file_running_entropy calculate 2 true
               (parsed [text; rdata])))
     = introspection
         (snd (running_entropy calculate 2 true 4 (Some 4)
                 (parsed [text; rdata]))).
Proof.
  assert (introspection
            (snd (parsed_file_running_entropy calculate 2 true
                    (parsed [text; rdata])))
          = introspection
              (snd (running_entropy calculate 2 true 4 (Some 4)
                      (parsed [text; rdata])))) as Hrec.
  { apply (proj1 (region_operations_record_last_region calculate
                    (parsed [text; rdata]) _ 2 true eq_refl eq_refl)
             [text] rdata
             (returned []
                (batch (region_series calculate 2 true (parsed [text; rdata]))
                   [text; rdata]))).
    - reflexivity.
    - vm_compute. reflexivity. }
  split; [|exact Hrec].
  change (fst (fst (fst (introspection
                           (snd (parsed_file_running_entropy calculate 2 true
                                   (parsed [text; rdata])))))) = Some 4).
  rewrite Hrec. vm_compute. reflexivity.
Defined.

(** X9 on the sample disk: the file of ten bytes is read byte by byte to
    its end, and the first byte read is its first. *)
Lemma construction_reads_the_file_once_witness :
  omap (fun ev => match ev with read_1 b => b | _ => None end)
    (snd (__init__ (V:=EntropyWindow) (E:=engine_error) label
            (digest "md5:") (digest "sha256:") no_sections disk "sample.bin"))
  = ten_bytes
  /\ omap (fun ev => match ev with md5_update b => Some b | _ => None end)
       (snd (__init__ (V:=EntropyWindow) (E:=engine_error) label
               (digest "md5:") (digest "sha256:") no_sections disk
               "sample.bin"))
     = ten_bytes.
Proof.
  destruct (construction_reads_the_file_once (V:=EntropyWindow)
              (E:=engine_error) label (digest "md5:") (digest "sha256:")
              no_sections disk "sample.bin" ten_bytes)
    as (_ & Hread & Hmd5 & _).
  - vm_compute. reflexivity.
  - split; [exact Hread | exact Hmd5].
Defined.

(** X10 on the two sample disks: the ten bytes get no parsed file and so
    no region report, the executable gets one. *)
Lemma construction_decides_region_analysis_witness :
  fst (parsed_file_running_entropy calculate 2 true plain) = Returns None
  /\ (exists self,
        fst (__init__ (E:=engine_error) label (digest "md5:")
               (digest "sha256:") two_sections exe_disk "sample.exe")
        = Returns self
        /\ layout self = Some ("pefile", [text; rdata])
        /\ fst (parsed_file_running_entropy calculate 2 true self)
           <> Returns None).
Proof.
  split.
  - destruct (construction_decides_region_analysis calculate label
                (digest "md5:") (digest "sha256:") no_sections disk
                "sample.bin" plain
                (snd (__init__ (V:=EntropyWindow) (E:=engine_error) label
                        (digest "md5:") (digest "sha256:") no_sections disk
                        "sample.bin")))
      as (content & _ & _ & _ & _ & Hno & _).
    + vm_compute. reflexivity.
    + apply Hno. vm_compute. reflexivity.
  - set (r := __init__ (V:=EntropyWindow) (E:=engine_error) label
                (digest "md5:") (digest "sha256:") two_sections exe_disk
                "sample.exe").
    exists (returned plain (fst r)).
    destruct (construction_decides_region_analysis calculate label
                (digest "md5:") (digest "sha256:") two_sections exe_disk
                "sample.exe" (returned plain (fst r)) (snd r))
      as (content & _ & _ & _ & _ & _ & Hyes).
    + vm_compute. reflexivity.
    + split; [vm_compute; reflexivity|].
      split; [vm_compute; reflexivity|].
      apply Hyes. vm_compute. reflexivity.
Defined.

(** X12 on the sample section [.text]: its name is UTF-8 and three NULs
    are taken off. *)
Lemma reported_section_name_witness :
  Py.utf8_well_formed (Name text) = true
  /\ list_ascii_of_string (string_of_list_byte (Name text))
     = list_ascii_of_string ".text" ++ repeat Ascii.zero 3
  /\ last (list_ascii_of_string ".text") <> Some Ascii.zero.
Proof.
  destruct (reported_section_name calculate plain 2 true text ".text")
    as (Hwf & _ & Hlast & _).
  - left. eexists. split; [vm_compute; reflexivity | reflexivity].
  - split; [exact Hwf|]. split; [reflexivity | exact Hlast].
Defined.

(** X14 on the ten bytes with a window of 4: the section of the last two
    bytes lies inside the file and is turned down, since two bytes are left
    from its offset; the section of the first four is not. *)
Lemma window_is_checked_against_the_file_witness :
  region_series calculate 4 true plain tail
  = Raises (IndexError (offset_not_valid 8 10 4))
  /\ fst (running_entropy calculate 4 true 8 (Some 2) plain)
     = Raises (IndexError (offset_not_valid 8 10 4))
  /\ ~ (exists m,
          region_series calculate 4 true plain text = Raises (IndexError m)).
Proof.
  split; [|split].
  - apply (proj2 (proj2 (proj2
             (window_is_checked_against_the_file calculate plain 4 true
                tail ltac:(simpl; lia) ltac:(simpl; lia) ltac:(simpl; lia)))
             (string_of_list_byte (Name tail)) ltac:(vm_compute; reflexivity))).
    simpl. lia.
  - apply (proj1 (proj2
             (window_is_checked_against_the_file calculate plain 4 true
                tail ltac:(simpl; lia) ltac:(simpl; lia) ltac:(simpl; lia)))).
    simpl. lia.
  - rewrite (proj1 (proj2 (proj2
               (window_is_checked_against_the_file calculate plain 4 true
                  text ltac:(simpl; lia) ltac:(simpl; lia) ltac:(simpl; lia)))
               (string_of_list_byte (Name text))
               ltac:(vm_compute; reflexivity))).
    simpl. lia.
Defined.

(** X15 on the ten bytes: a length of -2 from offset 0 reaches the first
    eight bytes. *)
Lemma running_entropy_span_witness :
  exists k : nat,
    fst (running_entropy calculate 4 true 0 (Some (-2)) plain)
    = fst (engine (V:=EntropyWindow)
             (calculate {| window := 4; normalize := true |}
                (take k (data plain))) plain)
    /\ k = 8%nat.
Proof.
  destruct (running_entropy_span calculate plain 4 true 0 (Some (-2)))
    as (k & Hrun & _ & _ & Hk).
  - reflexivity.
  - simpl. lia.
  - intros l [= <-]. simpl. lia.
  - exists k. split; [exact Hrun|].
    simpl in Hk. specialize (Hk ltac:(lia)). lia.
Defined.
